(** * kids-media-player: the scan-to-playback pipeline

    A shallow embedding of [config.py], [mpv_control.py], [scanner.py],
    [player.py] and [generate_qr_codes.py], followed by the properties of
    the scan router, the keycode decoder, the control-protocol client and
    the watchers.

    Conventions.
    - A Python [str] is a [string] holding its UTF-8 encoding.  The tests
      the sources make on a text ([/], [..], the prefix [CMD:], the last
      dot of a file name) are on 7-bit characters, which UTF-8 keeps as
      single bytes found nowhere else, so they are the same on the
      encoding.  [str.upper] and [str.lower] are the Unicode case
      mappings of the interpreter, taken as parameters ([PyStr.CaseMap]).
    - A reading of [time.monotonic()] is a rational number, as every
      binary64 value is one; the difference of two readings is rounded
      to the nearest binary64 value, as the interpreter does
      ([PyFloat.sub]).
    - A call that talks to the outside (the logger, the control socket, the
      splash generator) appends an [effect] to a trace, in program order;
      an exception that leaves a function ends its trace as [Raised]. *)

From Stdlib Require Import Bool Ascii String List ZArith QArith Lia.
From Stdlib Require Import DecimalString.
Import ListNotations.

Open Scope string_scope.

(** ** Python string operations used by the sources *)

Module PyStr.

Definition is_lower (c : ascii) : bool :=
  let n := nat_of_ascii c in (97 <=? n)%nat && (n <=? 122)%nat.

Definition is_upper (c : ascii) : bool :=
  let n := nat_of_ascii c in (65 <=? n)%nat && (n <=? 90)%nat.

Definition upper_char (c : ascii) : ascii :=
  if is_lower c then ascii_of_nat (nat_of_ascii c - 32) else c.

Definition lower_char (c : ascii) : ascii :=
  if is_upper c then ascii_of_nat (nat_of_ascii c + 32) else c.

(** [s.upper()] for a text of 7-bit characters. *)
Fixpoint ascii_upper (s : string) : string :=
  match s with
  | EmptyString => EmptyString
  | String c r => String (upper_char c) (ascii_upper r)
  end.

(** [s.lower()] for a text of 7-bit characters. *)
Fixpoint ascii_lower (s : string) : string :=
  match s with
  | EmptyString => EmptyString
  | String c r => String (lower_char c) (ascii_lower r)
  end.

(** All characters are 7-bit. *)
Fixpoint is_7bit (s : string) : bool :=
  match s with
  | EmptyString => true
  | String c r => (nat_of_ascii c <? 128)%nat && is_7bit r
  end.

(** [s.startswith(p)] *)
Fixpoint startswith (s p : string) {struct p} : bool :=
  match p, s with
  | EmptyString, _ => true
  | String a p', String b s' => Ascii.eqb a b && startswith s' p'
  | String _ _, EmptyString => false
  end.

(** [sub in s] *)
Fixpoint contains (sub s : string) : bool :=
  startswith s sub ||
  match s with
  | EmptyString => false
  | String _ r => contains sub r
  end.

(** [s[n:]] *)
Fixpoint drop (n : nat) (s : string) : string :=
  match n, s with
  | O, _ => s
  | S _, EmptyString => EmptyString
  | S k, String _ r => drop k r
  end.

(** Characters that [str.strip()] removes, among the 7-bit ones. *)
Definition is_space (c : ascii) : bool :=
  let n := nat_of_ascii c in
  ((9 <=? n)%nat && (n <=? 13)%nat) ||
  ((28 <=? n)%nat && (n <=? 32)%nat).

Fixpoint lstrip (s : string) : string :=
  match s with
  | EmptyString => EmptyString
  | String c r => if is_space c then lstrip r else s
  end.

(** Dropping trailing blanks: a character is kept when it is not a blank
    or when something remains after it. *)
Fixpoint rstrip (s : string) : string :=
  match s with
  | EmptyString => EmptyString
  | String c r =>
      match rstrip r with
      | EmptyString => if is_space c then EmptyString else String c EmptyString
      | r' => String c r'
      end
  end.

(** [s.strip()] *)
Definition strip (s : string) : string := rstrip (lstrip s).

(** Truth value of a [str]: non-empty. *)
Definition truthy (s : string) : bool :=
  match s with EmptyString => false | _ => true end.

(** [str(n)] for an [int]. *)
Definition str (n : Z) : string := NilZero.string_of_int (Z.to_int n).

(** [s.split("\n")[0]] *)
Fixpoint first_line (s : string) : string :=
  match s with
  | EmptyString => EmptyString
  | String c r => if Ascii.eqb c "010"%char then EmptyString
                  else String c (first_line r)
  end.

Definition newline : string := String "010"%char EmptyString.

(** [str.upper] and [str.lower] of the interpreter.  What is used of
    them: on a text of 7-bit characters they map the letters a-z and A-Z
    and nothing else; and uppercasing, which maps character by character
    and leaves [/] and [.] alone, keeps a [/] and a [..] where they
    are. *)
Class CaseMap := {
  upper : string -> string;
  lower : string -> string;
  upper_7bit : forall s, is_7bit s = true -> upper s = ascii_upper s;
  lower_7bit : forall s, is_7bit s = true -> lower s = ascii_lower s;
  upper_keeps_slash :
    forall s, contains "/" s = true -> contains "/" (upper s) = true;
  upper_keeps_dots :
    forall s, contains ".." s = true -> contains ".." (upper s) = true
}.

End PyStr.

(** ** Python floats *)

Module PyFloat.

(** [n / d] rounded to the nearest integer, ties to the even one, for
    [0 <= n] and [0 < d]. *)
Definition div_nearest_even (n d : Z) : Z :=
  let q := (n / d)%Z in
  let r := (n mod d)%Z in
  match (2 * r ?= d)%Z with
  | Lt => q
  | Gt => (q + 1)%Z
  | Eq => if Z.even q then q else (q + 1)%Z
  end.

(** The exponent of the last place of the binary64 values next to
    [a / d], for [0 < a] and [0 < d]: the significand has 53 bits, and
    the exponent does not go below that of the subnormal values. *)
Definition ulp_exponent (a d : Z) : Z :=
  let e0 := (Z.log2 a - Z.log2 d - 52)%Z in
  let e := if (e0 <? 0)%Z
           then (if (a * 2 ^ (- e0) <? d * 2 ^ 52)%Z
                 then (e0 - 1)%Z else e0)
           else (if (a <? d * 2 ^ (e0 + 52))%Z
                 then (e0 - 1)%Z else e0) in
  Z.max e (-1074).

(** The binary64 value nearest to [x], ties to even, for [x] within the
    range of the finite values. *)
Definition round64 (x : Q) : Q :=
  let n := Qnum x in
  let d := Z.pos (Qden x) in
  if (n =? 0)%Z then 0%Q
  else
    let a := Z.abs n in
    let e := ulp_exponent a d in
    let m := if (e <? 0)%Z
             then div_nearest_even (a * 2 ^ (- e))%Z d
             else div_nearest_even a (d * 2 ^ e)%Z in
    let s := Z.sgn n in
    if (e <? 0)%Z then Qmake (s * m)%Z (Z.to_pos (2 ^ (- e))%Z)
    else inject_Z (s * m * 2 ^ e)%Z.

(** [a - b] on binary64 values: the exact difference, rounded. *)
Definition sub (a b : Q) : Q := round64 (a - b).

End PyFloat.

(** ** config.py *)

Module Config.

Section Paths.
(** [BASE_DIR]: the directory the scripts are installed in. *)
Variable BASE_DIR : string.

Definition MEDIA_DIR : string := BASE_DIR ++ "/media".
Definition ASSETS_DIR : string := BASE_DIR ++ "/assets".
Definition SPLASH_IMAGE : string := ASSETS_DIR ++ "/splash.png".
End Paths.

Definition MPV_SOCKET : string := "/tmp/kids-mpv-socket".

Definition VIDEO_EXTENSIONS : list string :=
  [".mp4"; ".mkv"; ".avi"; ".webm"; ".mov"; ".m4v"; ".ts"; ".flv"].

Definition COMMAND_PREFIX : string := "CMD:".
Definition COMMANDS : list string :=
  ["PAUSE"; "STOP"; "VOLUP"; "VOLDOWN"; "MUTE"; "FWD"; "RWD"; "EXIT"].

Definition SEEK_STEP : Z := 10.
Definition SCAN_DEBOUNCE_SECONDS : Q := 2.
Definition VOLUME_STEP : Z := 5.

Definition SCANNER_DEVICE_NAME : string := "SCANNER".
Definition SCANNER_RECONNECT_SECONDS : Q := 3.

(** Membership in a Python set of strings. *)
Definition mem (s : string) (l : list string) : bool :=
  existsb (String.eqb s) l.

End Config.

(** ** Exceptions and effects shared by the modules *)

Inductive exn :=
| ConnectionRefusedError
| FileNotFoundError
| TimeoutError
| OSError
| UnicodeDecodeError
| JSONDecodeError
| AttributeError
| KeyError.

(** What a call does: it returns a value or lets an exception out. *)
Inductive result (A : Type) :=
| Returns (a : A)
| Raises (e : exn).
Arguments Returns {A} a.
Arguments Raises {A} e.

Inductive level := DEBUG | INFO | WARNING | ERROR.

(** One observable action, in program order.
    - [Log lvl fmt args]: a call [log.<lvl>(fmt, *args)];
    - [Ipc command]: a call of an [mpv_control] helper, recorded by the
      command list it hands to [_send]; its callers in [player.py] discard
      the boolean it returns;
    - [SplashGenerate]: a call of [splash.generate()];
    - [Raised e]: the exception [e] leaves the function; nothing follows
      it in the trace of that function. *)
Inductive effect :=
| Log (lvl : level) (fmt : string) (args : list string)
| Ipc (command : list string)
| SplashGenerate
| Raised (e : exn).

Definition is_generate (e : effect) : bool :=
  match e with SplashGenerate => true | _ => false end.

Definition is_raised (e : effect) : bool :=
  match e with Raised _ => true | _ => false end.

(** The commands sent to the media player, in order. *)
Fixpoint ipc_calls (t : list effect) : list (list string) :=
  match t with
  | [] => []
  | Ipc c :: r => c :: ipc_calls r
  | _ :: r => ipc_calls r
  end.

(** The trace without its log lines. *)
Definition actions (t : list effect) : list effect :=
  filter (fun e => match e with Log _ _ _ => false | _ => true end) t.

(** The trace of a call that ends as [r] does. *)
Definition raised_by {A : Type} (r : result A) : list effect :=
  match r with
  | Returns _ => []
  | Raises e => [Raised e]
  end.

(** An exception left the function of this trace. *)
Definition has_raised (t : list effect) : bool := existsb is_raised t.

(** The exception that left it, if any. *)
Fixpoint raised (t : list effect) : option exn :=
  match t with
  | [] => None
  | Raised e :: _ => Some e
  | _ :: r => raised r
  end.

(** [t] and then [k], unless an exception left [t]. *)
Definition and_then (t k : list effect) : list effect :=
  if has_raised t then t else (t ++ k)%list.

(** ** mpv_control.py *)

Module MpvControl.

(** Python values a decoded JSON document is made of. *)
#[warnings="-register-all"]
Inductive pyval :=
| PNone
| PBool (b : bool)
| PInt (n : Z)
| PFloat (q : Q)
| PStr (s : string)
| PList (l : list pyval)
| PDict (d : list (string * pyval)).

Definition dict := list (string * pyval).

(** [d.get(k)]: the value bound to [k], or [None]. *)
Fixpoint dict_get (d : dict) (k : string) : pyval :=
  match d with
  | [] => PNone
  | (k', v) :: r => if String.eqb k' k then v else dict_get r k
  end.

(** [v == s] for a string literal [s]. *)
Definition eq_str (v : pyval) (s : string) : bool :=
  match v with PStr t => String.eqb t s | _ => false end.

(** [v is True] *)
Definition is_True (v : pyval) : bool :=
  match v with PBool true => true | _ => false end.

(** Truth value of a Python value. *)
Definition truthy (v : pyval) : bool :=
  match v with
  | PNone => false
  | PBool b => b
  | PInt n => negb (n =? 0)%Z
  | PFloat q => negb (Qeq_bool q 0)
  | PStr s => PyStr.truthy s
  | PList l => match l with [] => false | _ => true end
  | PDict d => match d with [] => false | _ => true end
  end.

(** One [sock.recv(4096)]: some bytes (none at all when the far end has
    closed) or an exception such as the 2-second timeout. *)
Inductive recv_result :=
| Chunk (b : string)
| RecvRaises (e : exn).

(** The behaviour of the far end during one connection.  When the script
    of [on_recv] is used up the far end has closed. *)
Record far_end := {
  on_connect : option exn;
  on_sendall : option exn;
  on_recv : list recv_result
}.

(** The two library functions the client relies on: [bytes.decode()] and
    [json.loads], each giving [None] where the library raises. *)
Class Codec := {
  decode : string -> option string;
  json_loads : string -> option pyval
}.

Section Client.
Context {codec : Codec}.

(** The receive loop of [_send]: read until the data holds a newline or
    the far end closes. *)
Fixpoint recv_loop (script : list recv_result) (data : string)
  : exn + string :=
  if PyStr.contains PyStr.newline data then inr data
  else match script with
       | [] => inr data
       | Chunk c :: rest =>
           if PyStr.truthy c then recv_loop rest (data ++ c) else inr data
       | RecvRaises e :: _ => inl e
       end.

(** The body of the [try] block of [_send]; [inr PNone] is falling out
    of the block without a [return]. *)
Definition _send_try (srv : far_end) : exn + pyval :=
  match on_connect srv with
  | Some e => inl e
  | None =>
      match on_sendall srv with
      | Some e => inl e
      | None =>
          match recv_loop (on_recv srv) "" with
          | inl e => inl e
          | inr data =>
              if PyStr.truthy data then
                match decode data with
                | None => inl UnicodeDecodeError
                | Some text =>
                    match json_loads (PyStr.first_line text) with
                    | None => inl JSONDecodeError
                    | Some v => inr v
                    end
                end
              else inr PNone
          end
      end
  end.

(** [_send(command)]: the response and the lines logged. *)
Definition _send (srv : far_end) (command : list string)
  : pyval * list effect :=
  match _send_try srv with
  | inr v => (v, [])
  | inl ConnectionRefusedError
  | inl FileNotFoundError =>
      (PNone, [Log WARNING "mpv socket not available" []])
  | inl _ => (PNone, [Log ERROR "mpv IPC error" []])
  end.

(** [resp is not None and resp.get("error") == "success"] *)
Definition success (resp : pyval) : result bool :=
  match resp with
  | PNone => Returns false
  | PDict d => Returns (eq_str (dict_get d "error") "success")
  | _ => Raises AttributeError
  end.

Definition load_file_cmd (path : string) := ["loadfile"; path].
Definition stop_cmd := ["stop"].
Definition pause_toggle_cmd := ["cycle"; "pause"].
Definition volume_up_cmd (step : Z) := ["add"; "volume"; PyStr.str step].
Definition volume_down_cmd (step : Z) :=
  ["add"; "volume"; PyStr.str (- step)].
Definition mute_toggle_cmd := ["cycle"; "mute"].
Definition seek_cmd (seconds : Z) :=
  ["seek"; PyStr.str seconds; "relative"].
Definition get_property_cmd (name : string) := ["get_property"; name].


(** [get_property(name)] *)
Definition get_property (srv : far_end) (name : string) : result pyval :=
  let resp := fst (_send srv (get_property_cmd name)) in
  if truthy resp then
    match resp with
    | PDict d =>
        if eq_str (dict_get d "error") "success"
        then Returns (dict_get d "data")
        else Returns PNone
    | _ => Raises AttributeError
    end
  else Returns PNone.

(** [is_idle()] *)
Definition is_idle (srv : far_end) : result bool :=
  match get_property srv "idle-active" with
  | Returns val => Returns (is_True val)
  | Raises e => Raises e
  end.

End Client.

End MpvControl.
(** ** evdev: the event codes and key states the sources name *)

Module Ecodes.
Definition EV_KEY : Z := 1.

Definition KEY_ESC : Z := 1.
Definition KEY_1 : Z := 2.
Definition KEY_2 : Z := 3.
Definition KEY_3 : Z := 4.
Definition KEY_4 : Z := 5.
Definition KEY_5 : Z := 6.
Definition KEY_6 : Z := 7.
Definition KEY_7 : Z := 8.
Definition KEY_8 : Z := 9.
Definition KEY_9 : Z := 10.
Definition KEY_0 : Z := 11.
Definition KEY_MINUS : Z := 12.
Definition KEY_EQUAL : Z := 13.
Definition KEY_Q : Z := 16.
Definition KEY_W : Z := 17.
Definition KEY_E : Z := 18.
Definition KEY_R : Z := 19.
Definition KEY_T : Z := 20.
Definition KEY_Y : Z := 21.
Definition KEY_U : Z := 22.
Definition KEY_I : Z := 23.
Definition KEY_O : Z := 24.
Definition KEY_P : Z := 25.
Definition KEY_LEFTBRACE : Z := 26.
Definition KEY_RIGHTBRACE : Z := 27.
Definition KEY_ENTER : Z := 28.
Definition KEY_A : Z := 30.
Definition KEY_S : Z := 31.
Definition KEY_D : Z := 32.
Definition KEY_F : Z := 33.
Definition KEY_G : Z := 34.
Definition KEY_H : Z := 35.
Definition KEY_J : Z := 36.
Definition KEY_K : Z := 37.
Definition KEY_L : Z := 38.
Definition KEY_SEMICOLON : Z := 39.
Definition KEY_APOSTROPHE : Z := 40.
Definition KEY_GRAVE : Z := 41.
Definition KEY_LEFTSHIFT : Z := 42.
Definition KEY_BACKSLASH : Z := 43.
Definition KEY_Z : Z := 44.
Definition KEY_X : Z := 45.
Definition KEY_C : Z := 46.
Definition KEY_V : Z := 47.
Definition KEY_B : Z := 48.
Definition KEY_N : Z := 49.
Definition KEY_M : Z := 50.
Definition KEY_COMMA : Z := 51.
Definition KEY_DOT : Z := 52.
Definition KEY_SLASH : Z := 53.
Definition KEY_RIGHTSHIFT : Z := 54.
Definition KEY_SPACE : Z := 57.

(** [KeyEvent.key_up], [key_down], [key_hold] *)
Definition key_up : Z := 0.
Definition key_down : Z := 1.
Definition key_hold : Z := 2.

(** A raw input event.  For an [EV_KEY] event the kernel's [value] is
    0, 1 or 2, which [categorize] turns into the key state. *)
Record input_event := {
  type : Z;
  code : Z;
  value : Z
}.
(** The key table of [evdev] ([ecodes.keys]): the codes it has a name
    for.  [categorize] raises [KeyError] on a key event whose code it
    does not know. *)
Class KeyTable := {
  known : Z -> bool
}.

(** The three values a key event can carry. *)
Definition is_keystate (v : Z) : bool :=
  ((v =? key_up) || (v =? key_down) || (v =? key_hold))%Z.

End Ecodes.

(** ** scanner.py *)

Module Scanner.
Import Ecodes.

Definition dquote : string := String "034"%char EmptyString.

(** Key code to (normal, shifted) character. *)
Definition KEYMAP : list (Z * (string * string)) :=
  [ (KEY_1, ("1", "!")); (KEY_2, ("2", "@")); (KEY_3, ("3", "#"));
    (KEY_4, ("4", "$")); (KEY_5, ("5", "%")); (KEY_6, ("6", "^"));
    (KEY_7, ("7", "&")); (KEY_8, ("8", "*")); (KEY_9, ("9", "("));
    (KEY_0, ("0", ")")); (KEY_MINUS, ("-", "_")); (KEY_EQUAL, ("=", "+"));
    (KEY_Q, ("q", "Q")); (KEY_W, ("w", "W")); (KEY_E, ("e", "E"));
    (KEY_R, ("r", "R")); (KEY_T, ("t", "T")); (KEY_Y, ("y", "Y"));
    (KEY_U, ("u", "U")); (KEY_I, ("i", "I")); (KEY_O, ("o", "O"));
    (KEY_P, ("p", "P")); (KEY_LEFTBRACE, ("[", "{"));
    (KEY_RIGHTBRACE, ("]", "}"));
    (KEY_A, ("a", "A")); (KEY_S, ("s", "S")); (KEY_D, ("d", "D"));
    (KEY_F, ("f", "F")); (KEY_G, ("g", "G")); (KEY_H, ("h", "H"));
    (KEY_J, ("j", "J")); (KEY_K, ("k", "K")); (KEY_L, ("l", "L"));
    (KEY_SEMICOLON, (";", ":")); (KEY_APOSTROPHE, ("'", dquote));
    (KEY_GRAVE, ("`", "~")); (KEY_BACKSLASH, ("\", "|"));
    (KEY_Z, ("z", "Z")); (KEY_X, ("x", "X")); (KEY_C, ("c", "C"));
    (KEY_V, ("v", "V")); (KEY_B, ("b", "B")); (KEY_N, ("n", "N"));
    (KEY_M, ("m", "M")); (KEY_COMMA, (",", "<")); (KEY_DOT, (".", ">"));
    (KEY_SLASH, ("/", "?")); (KEY_SPACE, (" ", " ")) ].

(** [KEYMAP.get(scancode)] *)
Fixpoint keymap_get (m : list (Z * (string * string))) (scancode : Z)
  : option (string * string) :=
  match m with
  | [] => None
  | (k, v) :: r => if (k =? scancode)%Z then Some v else keymap_get r scancode
  end.

(** The two locals of [_read_loop], and the exception that ended the
    loop, if one did. *)
Record decoder := {
  buffer : string;
  shift : bool;
  failed : option exn
}.

Definition decoder_init : decoder :=
  {| buffer := ""; shift := false; failed := None |}.

Definition fail (st : decoder) (e : exn) : decoder :=
  {| buffer := buffer st; shift := shift st; failed := Some e |}.

Section Decoding.
Context {keys : KeyTable}.

(** One pass through the body of the [async for] of [_read_loop]: the
    new locals and the texts handed to the callback (none or one).
    [categorize] raises [KeyError] on a key event whose code [evdev] does
    not know; the [KeyEvent] it builds has a [keystate] only for the
    values 0, 1 and 2, and reading it otherwise raises
    [AttributeError]. *)
Definition on_event (st : decoder) (ev : input_event)
  : decoder * list string :=
  if negb (type ev =? EV_KEY)%Z then (st, [])
  else if negb (known (code ev)) then (fail st KeyError, [])
  else if negb (is_keystate (value ev)) then (fail st AttributeError, [])
  else if ((code ev =? KEY_LEFTSHIFT) || (code ev =? KEY_RIGHTSHIFT))%Z then
    ({| buffer := buffer st;
        shift := ((value ev =? key_down) || (value ev =? key_hold))%Z;
        failed := failed st |}, [])
  else if negb (value ev =? key_down)%Z then (st, [])
  else if (code ev =? KEY_ENTER)%Z then
    let text := PyStr.strip (buffer st) in
    ({| buffer := ""; shift := shift st; failed := failed st |},
     if PyStr.truthy text then [text] else [])
  else
    match keymap_get KEYMAP (code ev) with
    | Some (normal, shifted) =>
        let char := if shift st then shifted else normal in
        ({| buffer := buffer st ++ char; shift := shift st;
            failed := failed st |}, [])
    | None => (st, [])
    end.

(** [_read_loop] over the events a device delivers: the final locals and
    every text handed to the callback.  It stops at the event on which
    an exception is raised. *)
Fixpoint read_from (st : decoder) (events : list input_event)
  : decoder * list string :=
  match events with
  | [] => (st, [])
  | ev :: rest =>
      let (st1, out1) := on_event st ev in
      match failed st1 with
      | Some _ => (st1, out1)
      | None =>
          let (st2, out2) := read_from st1 rest in
          (st2, (out1 ++ out2)%list)
      end
  end.

Definition _read_loop (events : list input_event) : decoder * list string :=
  read_from decoder_init events.

End Decoding.

End Scanner.

(** ** pathlib: the attributes [find_video] reads *)

Module Pathlib.

(** [name.rfind('.')] *)
Fixpoint rfind_dot (s : string) : option nat :=
  match s with
  | EmptyString => None
  | String c r =>
      match rfind_dot r with
      | Some i => Some (S i)
      | None => if Ascii.eqb c "."%char then Some O else None
      end
  end.

(** [s[:n]] *)
Fixpoint take (n : nat) (s : string) : string :=
  match n, s with
  | O, _ => EmptyString
  | S _, EmptyString => EmptyString
  | S k, String c r => String c (take k r)
  end.

(** The last dot splits the name when it is neither its first nor its
    last character. *)
Definition split_at (name : string) : option nat :=
  match rfind_dot name with
  | Some i =>
      if ((0 <? i) && (i <? String.length name - 1))%nat then Some i else None
  | None => None
  end.

(** [PurePath.suffix] *)
Definition suffix (name : string) : string :=
  match split_at name with
  | Some i => PyStr.drop i name
  | None => ""
  end.

(** [PurePath.stem] *)
Definition stem (name : string) : string :=
  match split_at name with
  | Some i => take i name
  | None => name
  end.

End Pathlib.

(** ** player.py *)

Module Player.

(** The module-level variables. *)
Record globals := {
  _last_scan_text : string;
  _last_scan_time : Q;
  _shutting_down : bool
}.

(** Their values when the module is loaded. *)
Definition globals_init : globals :=
  {| _last_scan_text := ""; _last_scan_time := 0; _shutting_down := false |}.

(** An entry of [MEDIA_DIR.iterdir()]: its final component and what
    [is_file()] answers.  A media directory is [Some] list of its entries
    in iteration order, or [None] when [iterdir()] raises because the
    directory is missing or cannot be read. *)
Record dir_entry := {
  name : string;
  is_file : bool
}.

(** [a < b] on clock readings. *)
Definition Qltb (a b : Q) : bool := negb (Qle_bool b a).

Definition set_shutting_down (g : globals) : globals :=
  {| _last_scan_text := _last_scan_text g;
     _last_scan_time := _last_scan_time g;
     _shutting_down := true |}.

(** The safety test of [handle_scan]. *)
Definition suspicious (text : string) : bool :=
  PyStr.contains "/" text || PyStr.contains ".." text.

Section Runtime.
Context {cm : PyStr.CaseMap}.

(** The test of the [if] inside the loop of [find_video]. *)
Definition video_match (stem_lower : string) (f : dir_entry) : bool :=
  is_file f
  && Config.mem (PyStr.lower (Pathlib.suffix (name f))) Config.VIDEO_EXTENSIONS
  && String.eqb (PyStr.lower (Pathlib.stem (name f))) stem_lower.

(** [find_video(stem)] on a media directory: [None] is a directory that
    [iterdir()] cannot list (it is missing or unreadable) and raises
    [OSError] or a subclass of it. *)
Definition find_video (media : option (list dir_entry)) (stem : string)
  : result (option dir_entry) :=
  let stem_lower := PyStr.lower stem in
  match media with
  | None => Raises OSError
  | Some entries => Returns (find (video_match stem_lower) entries)
  end.

(** The debounce test of [handle_scan]. *)
Definition debounced (g : globals) (now : Q) (text : string) : bool :=
  String.eqb text (_last_scan_text g)
  && Qltb (PyFloat.sub now (_last_scan_time g)) Config.SCAN_DEBOUNCE_SECONDS.

Section Installed.
Variable BASE_DIR : string.

(** [str(f)] for an entry [f] of the media directory. *)
Definition path_str (f : dir_entry) : string :=
  Config.MEDIA_DIR BASE_DIR ++ "/" ++ name f.

(** A call of the [mpv_control] helper that sends [command], ending as
    [outcome] says. *)
Definition helper (command : list string) (outcome : result bool)
  : list effect :=
  Ipc command :: raised_by outcome.

(** [show_splash()]; [load] is how its call of [load_file] ends.
    [splash.generate()] writes the image and returns [str(SPLASH_IMAGE)],
    the path that is loaded. *)
Definition show_splash (load : result bool) : list effect :=
  SplashGenerate
  :: and_then
       (helper (MpvControl.load_file_cmd (Config.SPLASH_IMAGE BASE_DIR)) load)
       [Log INFO "Showing splash screen" []].

Section Scan.
(** How the helper that sends a given command ends, during one scan. *)
Variable mpv : list string -> result bool.

Definition send (command : list string) : list effect :=
  helper command (mpv command).

(** [_execute_command(cmd)] *)
Definition _execute_command (g : globals) (cmd : string)
  : globals * list effect :=
  if String.eqb cmd "PAUSE" then
    (g, send MpvControl.pause_toggle_cmd)
  else if String.eqb cmd "STOP" then
    (g, and_then
          (send MpvControl.stop_cmd)
          (show_splash
             (mpv (MpvControl.load_file_cmd (Config.SPLASH_IMAGE BASE_DIR)))))
  else if String.eqb cmd "VOLUP" then
    (g, send (MpvControl.volume_up_cmd Config.VOLUME_STEP))
  else if String.eqb cmd "VOLDOWN" then
    (g, send (MpvControl.volume_down_cmd Config.VOLUME_STEP))
  else if String.eqb cmd "MUTE" then
    (g, send MpvControl.mute_toggle_cmd)
  else if String.eqb cmd "FWD" then
    (g, send (MpvControl.seek_cmd Config.SEEK_STEP))
  else if String.eqb cmd "RWD" then
    (g, send (MpvControl.seek_cmd (- Config.SEEK_STEP)))
  else if String.eqb cmd "EXIT" then
    (set_shutting_down g,
     [Log INFO "EXIT command received, shutting down" []])
  else (g, []).

(** [handle_scan(text)], with [now] the reading of [time.monotonic()]
    and [media] the media directory at the time of the call. *)
Definition handle_scan (g : globals) (now : Q)
  (media : option (list dir_entry)) (text : string)
  : globals * list effect :=
  if debounced g now text then
    (g, [Log DEBUG "Debounced duplicate scan: %s" [text]])
  else
    let g1 := {| _last_scan_text := text;
                 _last_scan_time := now;
                 _shutting_down := _shutting_down g |} in
    if suspicious text then
      (g1, [Log WARNING "Rejected suspicious scan input: %s" [text]])
    else
      let text_upper := PyStr.upper text in
      if PyStr.startswith text_upper Config.COMMAND_PREFIX then
        let cmd :=
          PyStr.drop (String.length Config.COMMAND_PREFIX) text_upper in
        if negb (Config.mem cmd Config.COMMANDS) then
          (g1, [Log WARNING "Unknown command: %s" [cmd]])
        else
          let (g2, t) := _execute_command g1 cmd in
          (g2, (Log INFO "Executing command: %s" [cmd] :: t)%list)
      else
        match find_video media text with
        | Raises e => (g1, [Raised e])
        | Returns None =>
            (g1, [Log WARNING "No video found for: %s" [text]])
        | Returns (Some video) =>
            (g1, Log INFO "Playing: %s" [path_str video]
                 :: send (MpvControl.load_file_cmd (path_str video)))
        end.

End Scan.

(** The locals of [idle_watcher]. *)
Record watcher := {
  splash_showing : bool;
  last_minute : Z
}.

Definition watcher_init : watcher :=
  {| splash_showing := false; last_minute := -1 |}.

(** The body of the loop of [idle_watcher] after the sleep, once
    [mpv_control.is_idle()] has returned [idle]: [current_minute] is
    [datetime.now().minute] and [load] is how the [load_file] of
    [show_splash] ends.  When it raises, the locals are not assigned. *)
Definition idle_poll (idle : bool) (current_minute : Z)
  (load : result bool) (w : watcher) : watcher * list effect :=
  if idle then
    if negb (splash_showing w) || negb (current_minute =? last_minute w)%Z
    then (match load with
          | Returns _ =>
              {| splash_showing := true; last_minute := current_minute |}
          | Raises _ => w
          end,
          show_splash load)
    else (w, [])
  else ({| splash_showing := false; last_minute := -1 |}, []).

(** What one turn of the loop observes: the shutdown flag at the loop
    test, how [is_idle()] ends, the minute of the wall clock, and how the
    [load_file] of [show_splash] ends if it is called. *)
Record observation := {
  flag_seen : bool;
  idle : result bool;
  minute : Z;
  splash_load : result bool
}.

(** [idle_watcher()] over the observations of its successive turns. *)
Fixpoint idle_watcher_from (w : watcher) (obs : list observation)
  : watcher * list effect :=
  match obs with
  | [] => (w, [])
  | o :: rest =>
      if flag_seen o then (w, [])
      else
        match idle o with
        | Raises e => (w, [Raised e])
        | Returns is_idle =>
            let (w1, t1) := idle_poll is_idle (minute o) (splash_load o) w in
            if has_raised t1 then (w1, t1)
            else
              let (w2, t2) := idle_watcher_from w1 rest in
              (w2, (t1 ++ t2)%list)
        end
  end.

Definition idle_watcher (obs : list observation) : watcher * list effect :=
  idle_watcher_from watcher_init obs.

(** One turn of the loop of [_mpv_watcher]: [poll] is what
    [mpv_proc.poll()] returned. *)
Definition _mpv_watcher_turn (g : globals) (poll : option Z)
  : globals * list effect :=
  match poll with
  | Some returncode =>
      (set_shutting_down g,
       [Log INFO "mpv exited (code %s), shutting down"
            [PyStr.str returncode]])
  | None => (g, [])
  end.

(** [EXIT_KEYS] of [_keyboard_exit_watcher]. *)
Definition EXIT_KEYS : list Z := [Ecodes.KEY_Q; Ecodes.KEY_ESC].

(** The body of the loop of [_watch_one] for one event. *)
Definition _watch_one_event (g : globals) (ev : Ecodes.input_event)
  : globals * list effect :=
  if _shutting_down g then (g, [])
  else if ((Ecodes.type ev =? Ecodes.EV_KEY)
           && (Ecodes.value ev =? 1))%Z then
    if existsb (Z.eqb (Ecodes.code ev)) EXIT_KEYS then
      (set_shutting_down g,
       [Log INFO "Exit key pressed on keyboard, shutting down" []])
    else (g, [])
  else (g, []).

(** [_signal_shutdown()] *)
Definition _signal_shutdown (g : globals) : globals :=
  set_shutting_down g.

(** The steps the tasks of [run] take on the module-level variables,
    interleaved in any order: a scan handed to [handle_scan] (by the
    scanner reader or the keyboard reader), a turn of [idle_watcher]
    or of [shutdown_watcher] (which only read them), a turn of
    [_mpv_watcher], an event seen by [_watch_one], and a signal. *)
Inductive step : globals -> globals -> Prop :=
| step_scan mpv g now media text :
    step g (fst (handle_scan mpv g now media text))
| step_idle_watcher g :
    step g g
| step_shutdown_watcher g :
    step g g
| step_mpv_watcher g poll :
    step g (fst (_mpv_watcher_turn g poll))
| step_exit_key g ev :
    step g (fst (_watch_one_event g ev))
| step_signal g :
    step g (_signal_shutdown g).


End Installed.

End Runtime.

End Player.

(** ** scanner.py: finding the device and the reconnect loop *)

Module ScannerIO.
Import Ecodes.

(** An input device as [evdev] shows it: its path, its name and what
    [capabilities(verbose=False)] returns, event type to codes. *)
Record input_device := {
  path : string;
  name : string;
  capabilities : list (Z * list Z)
}.

(** [find_scanner()] over the devices of [list_devices()], in order. *)
Definition find_scanner (devs : list input_device) : option input_device :=
  find (fun dev => PyStr.contains Config.SCANNER_DEVICE_NAME (name dev)) devs.

(** What [read_scans] does to the outside. *)
Inductive io :=
| Note (lvl : level) (fmt : string) (args : list string)
| Grab (dev_path : string) (ok : bool)
| Ungrab (dev_path : string) (ok : bool)
| Sleep (seconds : Q)
| Callback (text : string).

(** How the read loop on a grabbed device ends: [async_read_loop] never
    runs out, so it ends with an [OSError] (the device went away) or
    with another exception (from the callback, say), which [read_scans]
    lets through. *)
Inductive read_end := Disconnected | Crashed.

(** What one turn of the [while True] of [read_scans] meets. *)
Record turn := {
  devices : list input_device;
  grab_fails : bool;
  events : list input_event;
  ending : read_end;
  ungrab_fails : bool
}.

(** The callbacks of [_read_loop], each after its log line. *)
Definition scanned (texts : list string) : list io :=
  flat_map (fun text => [Note INFO "Scanned: %s" [text]; Callback text]) texts.

Section Turns.
Context {keys : KeyTable}.

(** How the read loop of a turn ends: as the turn says, unless the
    decoder raised on one of the events first ([KeyError] and
    [AttributeError] are no [OSError]). *)
Definition turn_end (t : turn) : read_end :=
  match Scanner.failed (fst (Scanner._read_loop (events t))) with
  | Some _ => Crashed
  | None => ending t
  end.

(** One turn of the loop of [read_scans]: what it does, and whether the
    loop goes on ([false] when an exception leaves [read_scans]). *)
Definition read_scans_turn (t : turn) : list io * bool :=
  match find_scanner (devices t) with
  | None =>
      ([ Note INFO "Scanner not found, retrying in %ss..." ["3.0"];
         Sleep Config.SCANNER_RECONNECT_SECONDS ], true)
  | Some dev =>
      if grab_fails t then
        ([ Note INFO "Found scanner: %s at %s" [name dev; path dev];
           Grab (path dev) false;
           Note WARNING "Could not grab scanner, retrying..." [];
           Sleep Config.SCANNER_RECONNECT_SECONDS ], true)
      else
        ([ Note INFO "Found scanner: %s at %s" [name dev; path dev];
           Grab (path dev) true;
           Note INFO "Grabbed scanner exclusively" [] ]
         ++ scanned (snd (Scanner._read_loop (events t)))
         ++ match turn_end t with
            | Disconnected =>
                [Note WARNING "Scanner disconnected, will reconnect..." []]
            | Crashed => []
            end
         ++ [ Ungrab (path dev) (negb (ungrab_fails t));
              Sleep Config.SCANNER_RECONNECT_SECONDS ],
         match turn_end t with Disconnected => true | Crashed => false end)%list
  end.

(** [read_scans] over the turns it gets to run. *)
Fixpoint read_scans (turns : list turn) : list io :=
  match turns with
  | [] => []
  | t :: rest =>
      let (out, goes_on) := read_scans_turn t in
      if goes_on then (out ++ read_scans rest)%list else out
  end.

End Turns.

(** Following a trace with the calls in hand: [owed] says that a grab
    succeeded and [ungrab] has not been called since.  [None] when the
    trace calls [grab] while an [ungrab] is owed, hands over a text or
    calls [ungrab] while none is owed, or sleeps while one is owed. *)
Fixpoint owed_after (owed : bool) (trace : list io) : option bool :=
  match trace with
  | [] => Some owed
  | Note _ _ _ :: r => owed_after owed r
  | Grab _ ok :: r => if owed then None else owed_after ok r
  | Ungrab _ _ :: r => if owed then owed_after false r else None
  | Sleep _ :: r => if owed then None else owed_after false r
  | Callback _ :: r => if owed then owed_after true r else None
  end.

(** Following a trace with the grab itself in hand: an [ungrab] that
    fails leaves the device held.  [None] when the trace grabs or sleeps
    while the device is held, or hands over a text while it is not. *)
Fixpoint held_after (held : bool) (trace : list io) : option bool :=
  match trace with
  | [] => Some held
  | Note _ _ _ :: r => held_after held r
  | Grab _ ok :: r => if held then None else held_after ok r
  | Ungrab _ ok :: r => if held then held_after (negb ok) r else None
  | Sleep _ :: r => if held then None else held_after false r
  | Callback _ :: r => if held then held_after true r else None
  end.

Definition is_sleep (e : io) : bool :=
  match e with Sleep _ => true | _ => false end.

(** The keyboards [_keyboard_exit_watcher] of [player.py] selects. *)
Definition keyboards (devs : list input_device) : list input_device :=
  filter
    (fun dev =>
       negb (PyStr.contains Config.SCANNER_DEVICE_NAME (name dev))
       && match find (fun kv => (fst kv =? EV_KEY)%Z) (capabilities dev) with
          | Some (_, codes) => existsb (Z.eqb KEY_Q) codes
          | None => false
          end)
    devs.

End ScannerIO.

(** ** player.py: the loops around the module-level variables *)

Module PlayerLoops.
Import Player.

(** An event read by [_watch_one], and whether another task raised the
    shutdown flag while the watcher waited for it. *)
Record watched := {
  raised_meanwhile : bool;
  event : Ecodes.input_event
}.

Definition raise_if (b : bool) (g : globals) : globals :=
  if b then set_shutting_down g else g.

(** [_watch_one(dev)] over the events of the device. *)
Fixpoint _watch_one (g : globals) (events : list watched)
  : globals * list effect :=
  match events with
  | [] => (g, [])
  | w :: rest =>
      let (g1, t1) :=
        _watch_one_event (raise_if (raised_meanwhile w) g) (event w) in
      if _shutting_down g1 then (g1, t1)
      else let (g2, t2) := _watch_one g1 rest in (g2, (t1 ++ t2)%list)
  end.

(** A line [reader.readline()] returns (empty at end of input), whether
    another task raised the shutdown flag while the reader waited for it,
    and what [handle_scan] meets when the line is handled: the clock, the
    media directory and how the helpers end. *)
Record stdin_line := {
  flag_raised_meanwhile : bool;
  now : Q;
  dir : option (list dir_entry);
  mpv : list string -> result bool;
  line : string
}.

Section Installed.
Context {cm : PyStr.CaseMap}.
Variable BASE_DIR : string.

(** [_keyboard_reader()] over the lines of standard input; the third
    component is the exception that leaves it, if any. *)
Fixpoint _keyboard_reader {codec : MpvControl.Codec} (g : globals)
  (input : list stdin_line)
  : globals * list effect * option exn :=
  match input with
  | [] => (g, [], None)
  | l :: rest =>
      if _shutting_down g then (g, [], None)
      else
        let g0 := raise_if (flag_raised_meanwhile l) g in
        if negb (PyStr.truthy (line l)) then (g0, [], None)
        else
        match MpvControl.decode (line l) with
        | None => (g0, [Raised UnicodeDecodeError], Some UnicodeDecodeError)
        | Some decoded =>
            let text := PyStr.strip decoded in
            if PyStr.truthy text then
              let (g1, t1) :=
                handle_scan BASE_DIR (mpv l) g0 (now l) (dir l) text in
              match raised t1 with
              | Some e => (g1, t1, Some e)
              | None =>
                  let '(g2, t2, e) := _keyboard_reader g1 rest in
                  (g2, (t1 ++ t2)%list, e)
              end
            else _keyboard_reader g0 rest
        end
  end.

End Installed.

(** What the start of [run] does to the outside. *)
Inductive startup :=
| MakeMediaDir
| UnlinkSocket
| Launch
| Nap (seconds : Q)
| Say (lvl : level) (fmt : string)
| TerminateMpv
| ShowSplash.

(** The [for ... else] of [run] that waits for the control socket:
    [seen k] is what the [k]-th call of [socket_path.exists()] in the
    loop answers.  [Some k] when the [k]-th check finds it; [None] when
    [attempts] checks did not.  Every check that fails is followed by a
    sleep of 0.25 s. *)
Fixpoint wait_for_socket (attempts : nat) (k : nat) (seen : nat -> bool)
  : option nat * list startup :=
  match attempts with
  | O => (None, [])
  | S a =>
      if seen k then (Some k, [])
      else let (found, naps) := wait_for_socket a (S k) seen in
           (found, Nap (1 # 4) :: naps)
  end.

Definition socket_ready (seen : nat -> bool) : option nat * list startup :=
  wait_for_socket 20 0 seen.

(** [run()] up to the point where it either gives up or has shown the
    first splash screen; [stale] says that a socket file of an earlier
    run is there. *)
Definition run_startup (stale : bool) (seen : nat -> bool) : list startup :=
  ([MakeMediaDir]
   ++ (if stale then [UnlinkSocket] else [])
   ++ [Say INFO "Starting mpv..."; Launch]
   ++ snd (socket_ready seen)
   ++ match fst (socket_ready seen) with
      | None => [Say ERROR "mpv socket did not appear, exiting"; TerminateMpv]
      | Some _ => [Say INFO "mpv is ready"; ShowSplash]
      end)%list.

End PlayerLoops.

(** ** generate_qr_codes.py *)

Module QrCodes.

(** Insertion into a list ordered by [key], as [sorted] orders strings. *)
Fixpoint insert_by {A : Type} (key : A -> string) (x : A) (l : list A)
  : list A :=
  match l with
  | [] => [x]
  | y :: r => if String.leb (key x) (key y) then x :: l
              else y :: insert_by key x r
  end.

(** [sorted(l)] by [key]. *)
Fixpoint sorted_by {A : Type} (key : A -> string) (l : list A) : list A :=
  match l with
  | [] => []
  | x :: r => insert_by key x (sorted_by key r)
  end.

(** A call [generate_qr(text, label, out)]; [out] is the name of the
    file inside [QR_CODES_DIR]. *)
Record qr := {
  text : string;
  label : string;
  out : string
}.

(** The calls of [generate_for_commands()]; it returns their number. *)
Definition generate_for_commands : list qr :=
  map (fun cmd => {| text := Config.COMMAND_PREFIX ++ cmd;
                     label := cmd;
                     out := "CMD-" ++ cmd ++ ".png" |})
      (sorted_by (fun cmd => cmd) Config.COMMANDS).

Section Media.
Context {cm : PyStr.CaseMap}.

(** The test of the [if] in the loop of [generate_for_media]. *)
Definition is_video (f : Player.dir_entry) : bool :=
  Player.is_file f
  && Config.mem (PyStr.lower (Pathlib.suffix (Player.name f)))
                Config.VIDEO_EXTENSIONS.

(** The calls of [generate_for_media()]; [None] is a media directory
    that does not exist.  The entries are taken in the order of their
    names, as paths of one directory sort. *)
Definition generate_for_media (media : option (list Player.dir_entry))
  : list qr :=
  match media with
  | None => []
  | Some entries =>
      map (fun f => let stem := Pathlib.stem (Player.name f) in
                    {| text := stem; label := stem; out := stem ++ ".png" |})
          (filter is_video (sorted_by Player.name entries))
  end.

End Media.

End QrCodes.

(** * Vocabulary of the properties *)

(** The entry is a file with a supported extension whose stem is the text,
    letter case apart. *)
Definition matches {cm : PyStr.CaseMap} (text : string) (f : Player.dir_entry)
  : Prop :=
  Player.is_file f = true /\
  In (PyStr.lower (Pathlib.suffix (Player.name f))) Config.VIDEO_EXTENSIONS /\
  PyStr.lower (Pathlib.stem (Player.name f)) = PyStr.lower text.

(** The decoder, said in terms of the events alone. *)

Module ScannerSpec.
Import Ecodes Scanner.

(** An event of one of the two shift keys. *)
Definition is_shift_key (ev : input_event) : bool :=
  ((type ev =? EV_KEY)
   && ((code ev =? KEY_LEFTSHIFT) || (code ev =? KEY_RIGHTSHIFT)))%Z.


(** The key-down of Enter. *)
Definition is_enter_down (ev : input_event) : bool :=
  ((type ev =? EV_KEY) && (code ev =? KEY_ENTER) && (value ev =? key_down))%Z.




End ScannerSpec.

(** The bytes of a stream, piece after piece. *)

Module ClientFacts.

Fixpoint join (pieces : list string) : string :=
  match pieces with
  | [] => ""
  | p :: rest => p ++ join rest
  end.

End ClientFacts.

(** The client, said in terms of the far end. *)

Module MpvControlSpec.
Import MpvControl ClientFacts.









End MpvControlSpec.

(** More on the decoder: the events that cannot matter, and the
    characters of the key table. *)

Module DecoderFacts.
Import Ecodes Scanner ScannerSpec.


(** An event the decoder passes over: not a key event; or a well-formed
    event of a non-shift key that is not a key-down, or that is the
    key-down of a key that is not Enter and is missing from the table. *)
Definition inert {keys : KeyTable} (ev : input_event) : bool :=
  negb (type ev =? EV_KEY)%Z
  || (known (code ev) && is_keystate (value ev)
      && negb (is_shift_key ev)
      && (negb (value ev =? key_down)%Z
          || (negb (code ev =? KEY_ENTER)%Z
              && match keymap_get KEYMAP (code ev) with
                 | Some _ => false
                 | None => true
                 end))).

(** A printable 7-bit character: code 32 to 126. *)
Definition printable (c : ascii) : bool :=
  ((32 <=? nat_of_ascii c) && (nat_of_ascii c <=? 126))%nat.

Fixpoint all_printable (s : string) : bool :=
  match s with
  | EmptyString => true
  | String c r => printable c && all_printable r
  end.

End DecoderFacts.

(** More on the router and the watchers. *)

Module RouterFacts.
Import Player.

(** A scan as [handle_scan] meets it: the reading of the clock, the media
    directory, how the helpers end, and the text. *)
Record scan := {
  at_time : Q;
  media : option (list dir_entry);
  helpers : list string -> result bool;
  scanned_text : string
}.

(** Successive calls of [handle_scan], each on the state the one before
    left. *)
Fixpoint scan_all {cm : PyStr.CaseMap}
  (BASE_DIR : string) (g : globals) (scans : list scan)
  : globals * list effect :=
  match scans with
  | [] => (g, [])
  | s :: rest =>
      let (g1, t1) :=
        handle_scan BASE_DIR (helpers s) g (at_time s) (media s)
                    (scanned_text s) in
      let (g2, t2) := scan_all BASE_DIR g1 rest in
      (g2, (t1 ++ t2)%list)
  end.

(** A key-down of Q or of ESC. *)
Definition is_exit_down (ev : Ecodes.input_event) : bool :=
  ((Ecodes.type ev =? Ecodes.EV_KEY) && (Ecodes.value ev =? 1))%Z
  && existsb (Z.eqb (Ecodes.code ev)) EXIT_KEYS.

(** How often the minute changes along [minutes], counted from the
    minute [shown] of the splash screen on display, if any: a first
    minute with nothing on display counts as a change. *)
Fixpoint minute_changes (shown : option Z) (minutes : list Z) : nat :=
  match minutes with
  | [] => O
  | m :: rest =>
      match shown with
      | Some m0 =>
          if (m =? m0)%Z then minute_changes (Some m) rest
          else S (minute_changes (Some m) rest)
      | None => S (minute_changes (Some m) rest)
      end
  end.

(** The commands [_execute_command] and [show_splash] can send. *)
Definition fixed_commands (BASE_DIR : string) : list (list string) :=
  [ ["cycle"; "pause"]; ["stop"];
    ["add"; "volume"; "5"]; ["add"; "volume"; "-5"];
    ["cycle"; "mute"];
    ["seek"; "10"; "relative"]; ["seek"; "-10"; "relative"];
    ["loadfile"; Config.SPLASH_IMAGE BASE_DIR] ].

(** The turns of the idle watcher that display the splash screen, said
    of the observations alone: a turn displays when the player is idle
    and nothing is on display or the minute is not the one on display.
    [shown] is the minute on display before the turn, if any. *)
Definition displays (shown : option Z) (o : observation) : bool :=
  match idle o with
  | Returns true =>
      match shown with
      | Some m0 => negb (minute o =? m0)%Z
      | None => true
      end
  | _ => false
  end.

(** What is on display after a turn in which no call raised. *)
Definition shown_after (shown : option Z) (o : observation) : option Z :=
  match idle o with
  | Returns true => Some (minute o)
  | _ => None
  end.

(** The number of displays over turns in which no call raises and no
    shutdown is seen. *)
Fixpoint display_count (shown : option Z) (obs : list observation) : nat :=
  match obs with
  | [] => O
  | o :: rest =>
      (if displays shown o then 1 else 0)%nat
      + display_count (shown_after shown o) rest
  end.

(** No shutdown is seen and no call raises in this turn. *)
Definition quiet (o : observation) : Prop :=
  flag_seen o = false /\
  (exists b, idle o = Returns b) /\
  (exists b, splash_load o = Returns b).

(** What is on display, read off the locals of the loop. *)
Definition on_display (w : watcher) : option Z :=
  if splash_showing w then Some (last_minute w) else None.

End RouterFacts.

(** The 7-bit case mapping and the samples of the examples *)

Lemma startswith_ascii_upper (p s : string) :
  PyStr.startswith s p = true ->
  PyStr.startswith (PyStr.ascii_upper s) (PyStr.ascii_upper p) = true.
Proof.
  revert s; induction p as [|a p IH]; intros s H; simpl in *.
  - reflexivity.
  - destruct s as [|b s]; [discriminate|]; simpl.
    apply andb_true_iff in H as [Hab Hs].
    apply Ascii.eqb_eq in Hab; subst b.
    rewrite Ascii.eqb_refl; simpl; apply IH; exact Hs.
Qed.

Lemma contains_ascii_upper (sub s : string) :
  PyStr.contains sub s = true ->
  PyStr.contains (PyStr.ascii_upper sub) (PyStr.ascii_upper s) = true.
Proof.
  induction s as [|c s IH]; simpl; intros H.
  - apply orb_true_iff in H as [H | H]; [|discriminate].
    apply startswith_ascii_upper in H; simpl in H; rewrite H; reflexivity.
  - apply orb_true_iff in H as [H | H].
    + apply startswith_ascii_upper in H; simpl in H; rewrite H; reflexivity.
    + rewrite (IH H); apply orb_true_r.
Qed.

Module Sample.
Import MpvControl.

(** The case mapping of texts of 7-bit characters. *)
Definition ascii_case : PyStr.CaseMap :=
  {| PyStr.upper := PyStr.ascii_upper;
     PyStr.lower := PyStr.ascii_lower;
     PyStr.upper_7bit := fun s _ => eq_refl;
     PyStr.lower_7bit := fun s _ => eq_refl;
     PyStr.upper_keeps_slash := contains_ascii_upper "/";
     PyStr.upper_keeps_dots := contains_ascii_upper ".." |}.

(** The codes named in [linux/input-event-codes.h] up to 248: all but
    84 and 195 to 199, which have no name. *)
Definition kernel_keys : Ecodes.KeyTable :=
  {| Ecodes.known :=
       fun c => ((0 <=? c) && (c <=? 248) && negb (c =? 84)
                 && negb ((195 <=? c) && (c <=? 199)))%Z |}.

(** Every helper returns, reporting success. *)
Definition returning : list string -> result bool := fun _ => Returns true.

Definition q (s : string) : string := Scanner.dquote ++ s ++ Scanner.dquote.

(** A reply object whose error field is success. *)
Definition reply_success : string :=
  "{" ++ q "error" ++ ":" ++ q "success" ++ "}".

(** A reply object whose data field is true and whose error field is
    success. *)
Definition reply_idle : string :=
  "{" ++ q "data" ++ ":true," ++ q "error" ++ ":" ++ q "success" ++ "}".

(** A reply object whose error field is not success. *)
Definition reply_unavailable : string :=
  "{" ++ q "error" ++ ":" ++ q "property unavailable" ++ "}".

(** A reply that is a JSON array. *)
Definition reply_array : string := "[1]".

(** A codec for the examples: it decodes 7-bit data as it is and parses
    the reply lines above the way [json.loads] does. *)
Definition sample_loads (line : string) : option pyval :=
  if String.eqb line reply_success then
    Some (PDict [("error", PStr "success")])
  else if String.eqb line reply_idle then
    Some (PDict [("data", PBool true); ("error", PStr "success")])
  else if String.eqb line reply_unavailable then
    Some (PDict [("error", PStr "property unavailable")])
  else if String.eqb line reply_array then
    Some (PList [PInt 1])
  else None.

Definition sample_codec : Codec :=
  {| decode := fun data => Some data; json_loads := sample_loads |}.

(** A far end that answers with [line] in one piece and closes. *)
Definition answers (line : string) : far_end :=
  {| on_connect := None; on_sendall := None; on_recv := [Chunk line] |}.

(** A far end that refuses the connection. *)
Definition refuses : far_end :=
  {| on_connect := Some ConnectionRefusedError;
     on_sendall := None; on_recv := [] |}.

(** How the helpers end against a far end that answers every command
    with [line]. *)
Definition answering (line : string) : list string -> result bool :=
  fun command => @success (fst (@_send sample_codec (answers line) command)).

Definition key (c v : Z) : Ecodes.input_event :=
  {| Ecodes.type := Ecodes.EV_KEY; Ecodes.code := c; Ecodes.value := v |}.

End Sample.

(** * Properties *)

(** ** Strings *)

Lemma startswith_split (p s : string) :
  PyStr.startswith s p = true -> s = p ++ PyStr.drop (String.length p) s.
Proof.
  revert s; induction p as [|a p IH]; intros s H; simpl in *.
  - reflexivity.
  - destruct s as [|b s]; [discriminate|].
    apply andb_true_iff in H as [Hab Hs].
    apply Ascii.eqb_eq in Hab; subst b.
    f_equal; apply IH; exact Hs.
Qed.


Lemma mem_In (s : string) (l : list string) :
  Config.mem s l = true <-> In s l.
Proof.
  unfold Config.mem; rewrite existsb_exists; split.
  - intros [x [Hin Heq]]; apply String.eqb_eq in Heq; subst; exact Hin.
  - intros Hin; exists s; split; [exact Hin | apply String.eqb_refl].
Qed.

Lemma append_nil_r (s : string) : s ++ "" = s.
Proof. induction s; simpl; congruence. Qed.

Lemma append_assoc (a b c : string) : (a ++ b) ++ c = a ++ (b ++ c).
Proof. induction a; simpl; congruence. Qed.

(** ** Traces *)

Lemma has_raised_app (a b : list effect) :
  has_raised (a ++ b) = has_raised a || has_raised b.
Proof. unfold has_raised; apply existsb_app. Qed.

Lemma raised_none (t : list effect) :
  has_raised t = false -> raised t = None.
Proof.
  induction t as [|e t IH]; [reflexivity|].
  destruct e; cbn; auto; discriminate.
Qed.

Lemma raised_some (t : list effect) :
  has_raised t = true -> exists e, raised t = Some e.
Proof.
  induction t as [|e t IH]; [discriminate|].
  destruct e; cbn; auto; intros _; eexists; reflexivity.
Qed.

Lemma ipc_calls_app (a b : list effect) :
  ipc_calls (a ++ b) = (ipc_calls a ++ ipc_calls b)%list.
Proof.
  induction a as [|e a IH]; [reflexivity|].
  destruct e; cbn; rewrite ?IH; reflexivity.
Qed.

(** ** The scan router: debounce and safety *)

Section Router.
Context {cm : PyStr.CaseMap}.
Variable BASE_DIR : string.
Import Player.

Lemma Qltb_lt (a b : Q) : Qltb a b = true <-> (a < b)%Q.
Proof.
  unfold Qltb; rewrite negb_true_iff; split.
  - intros H; apply Qnot_le_lt; intros Hle.
    apply Qle_bool_iff in Hle; congruence.
  - intros H; destruct (Qle_bool b a) eqn:E; [|reflexivity].
    apply Qle_bool_iff in E; exfalso; exact (Qlt_not_le _ _ H E).
Qed.

Lemma debounced_iff (g : globals) (now : Q) (text : string) :
  debounced g now text = true <->
  text = _last_scan_text g /\
  (PyFloat.sub now (_last_scan_time g) < Config.SCAN_DEBOUNCE_SECONDS)%Q.
Proof.
  unfold debounced; rewrite andb_true_iff, String.eqb_eq, Qltb_lt; tauto.
Qed.

Lemma execute_command_keeps_scan
  (mpv : list string -> result bool) (g : globals) (cmd : string) :
  _last_scan_text (fst (_execute_command BASE_DIR mpv g cmd))
    = _last_scan_text g /\
  _last_scan_time (fst (_execute_command BASE_DIR mpv g cmd))
    = _last_scan_time g.
Proof.
  unfold _execute_command.
  repeat match goal with
         | |- context [if String.eqb ?a ?b then _ else _] =>
             destruct (String.eqb a b)
         end; simpl; auto.
Qed.

Lemma accepted_scan_recorded
  (mpv : list string -> result bool) (g : globals) (now : Q)
  (dir : option (list dir_entry)) (text : string) :
  debounced g now text = false ->
  _last_scan_text (fst (handle_scan BASE_DIR mpv g now dir text)) = text /\
  _last_scan_time (fst (handle_scan BASE_DIR mpv g now dir text)) = now.
Proof.
  intros Hd; unfold Player.handle_scan; rewrite Hd.
  destruct (suspicious text); [simpl; auto|].
  destruct (PyStr.startswith _ _).
  - destruct (negb _); [simpl; auto|].
    match goal with
    | |- context [_execute_command BASE_DIR mpv ?g1 ?c] =>
        pose proof (execute_command_keeps_scan mpv g1 c) as [H1 H2];
        destruct (_execute_command BASE_DIR mpv g1 c) as [g2 t]
    end.
    simpl in *; auto.
  - destruct (find_video dir text) as [[video|]|e]; simpl; auto.
Qed.

(** C1 (amended).  A scanned text that contains [/] or [..] never makes
    the router call the control-protocol client, generate a splash screen
    or change the shutdown flag, whatever else the text holds (a command
    prefix, the stem of a media file) and whatever the router's state.
    When the scan passes the debounce step it is rejected: the only effect
    is the warning "Rejected suspicious scan input".  When it is a
    duplicate inside the debounce window it is discarded by the debounce
    step instead, before the safety test. *)
Theorem suspicious_scan_never_dispatched
  (mpv : list string -> result bool)
  (g : globals) (now : Q) (dir : option (list dir_entry)) (text : string) :
  PyStr.contains "/" text = true \/ PyStr.contains ".." text = true ->
  ipc_calls (snd (handle_scan BASE_DIR mpv g now dir text)) = [] /\
  actions (snd (handle_scan BASE_DIR mpv g now dir text)) = [] /\
  _shutting_down (fst (handle_scan BASE_DIR mpv g now dir text))
    = _shutting_down g /\
  (debounced g now text = false ->
   snd (handle_scan BASE_DIR mpv g now dir text)
     = [Log WARNING "Rejected suspicious scan input: %s" [text]]) /\
  (debounced g now text = true ->
   snd (handle_scan BASE_DIR mpv g now dir text)
     = [Log DEBUG "Debounced duplicate scan: %s" [text]]).
Proof.
  intros Hs.
  assert (Hsus : suspicious text = true).
  { unfold suspicious; apply orb_true_iff; exact Hs. }
  unfold Player.handle_scan.
  destruct (debounced g now text); rewrite ?Hsus; simpl;
    repeat split; auto; discriminate.
Qed.

(** C2 (amended).  A scan is discarded by the debounce step exactly when
    its text equals the last accepted text and the elapsed time - the
    binary64 difference of the two clock readings, as the program
    computes it - is below the debounce window; so it is accepted exactly
    when the text differs or that elapsed time is at least the window.  A
    discarded scan leaves the state as it was and only logs a debug line;
    an accepted scan stores (text, now). *)
Theorem debounce_accepts_iff
  (mpv : list string -> result bool)
  (g : globals) (now : Q) (dir : option (list dir_entry)) (text : string) :
  (snd (handle_scan BASE_DIR mpv g now dir text)
     <> [Log DEBUG "Debounced duplicate scan: %s" [text]]
   <-> (text <> _last_scan_text g \/
        (Config.SCAN_DEBOUNCE_SECONDS
         <= PyFloat.sub now (_last_scan_time g))%Q)) /\
  (snd (handle_scan BASE_DIR mpv g now dir text)
     = [Log DEBUG "Debounced duplicate scan: %s" [text]] ->
   fst (handle_scan BASE_DIR mpv g now dir text) = g) /\
  (snd (handle_scan BASE_DIR mpv g now dir text)
     <> [Log DEBUG "Debounced duplicate scan: %s" [text]] ->
   _last_scan_text (fst (handle_scan BASE_DIR mpv g now dir text)) = text /\
   _last_scan_time (fst (handle_scan BASE_DIR mpv g now dir text)) = now).
Proof.
  assert (Hacc : debounced g now text = false ->
                 snd (handle_scan BASE_DIR mpv g now dir text)
                   <> [Log DEBUG "Debounced duplicate scan: %s" [text]]).
  { intros Hd; unfold Player.handle_scan; rewrite Hd.
    destruct (suspicious text); [simpl; discriminate|].
    destruct (PyStr.startswith _ _).
    - destruct (negb _); [simpl; discriminate|].
      destruct (_execute_command _ _ _ _); simpl; discriminate.
    - destruct (find_video dir text) as [[video|]|e]; simpl; discriminate. }
  assert (Hdeb : debounced g now text = true ->
                 handle_scan BASE_DIR mpv g now dir text
                   = (g, [Log DEBUG "Debounced duplicate scan: %s" [text]])).
  { intros Hd; unfold Player.handle_scan; rewrite Hd; reflexivity. }
  destruct (debounced g now text) eqn:Hd.
  - rewrite (Hdeb eq_refl); simpl.
    apply debounced_iff in Hd as [Ht Hq].
    split; [split|split].
    + intros H; exfalso; apply H; reflexivity.
    + intros [H | H] _; [contradiction|].
      exact (Qlt_not_le _ _ Hq H).
    + reflexivity.
    + intros H; exfalso; apply H; reflexivity.
  - specialize (Hacc eq_refl).
    split; [split|split].
    + intros _.
      destruct (String.eqb text (_last_scan_text g)) eqn:Et.
      * right. apply Qnot_lt_le; intros Hq.
        apply String.eqb_eq in Et.
        assert (debounced g now text = true) by (apply debounced_iff; auto).
        congruence.
      * left; apply String.eqb_neq; exact Et.
    + intros _; exact Hacc.
    + intros H; contradiction.
    + intros _; apply accepted_scan_recorded; exact Hd.
Qed.


End Router.

(** ** The scan router: commands and media *)

Section Dispatch.
Context {cm : PyStr.CaseMap}.
Variable BASE_DIR : string.
Import Player.


Lemma execute_command_flag
  (mpv : list string -> result bool) (g : globals) (cmd : string) :
  _shutting_down (fst (_execute_command BASE_DIR mpv g cmd))
  = (_shutting_down g || String.eqb cmd "EXIT")%bool.
Proof.
  unfold _execute_command.
  destruct (String.eqb cmd "PAUSE") eqn:E1;
    [apply String.eqb_eq in E1; subst; simpl; apply eq_sym, orb_false_r|].
  destruct (String.eqb cmd "STOP") eqn:E2;
    [apply String.eqb_eq in E2; subst; simpl; apply eq_sym, orb_false_r|].
  destruct (String.eqb cmd "VOLUP") eqn:E3;
    [apply String.eqb_eq in E3; subst; simpl; apply eq_sym, orb_false_r|].
  destruct (String.eqb cmd "VOLDOWN") eqn:E4;
    [apply String.eqb_eq in E4; subst; simpl; apply eq_sym, orb_false_r|].
  destruct (String.eqb cmd "MUTE") eqn:E5;
    [apply String.eqb_eq in E5; subst; simpl; apply eq_sym, orb_false_r|].
  destruct (String.eqb cmd "FWD") eqn:E6;
    [apply String.eqb_eq in E6; subst; simpl; apply eq_sym, orb_false_r|].
  destruct (String.eqb cmd "RWD") eqn:E7;
    [apply String.eqb_eq in E7; subst; simpl; apply eq_sym, orb_false_r|].
  destruct (String.eqb cmd "EXIT") eqn:E8; simpl.
  - apply eq_sym, orb_true_r.
  - apply eq_sym, orb_false_r.
Qed.

(** The run of [handle_scan] on an accepted, unsuspicious text that
    carries the command prefix. *)
Lemma handle_scan_command
  (mpv : list string -> result bool)
  (g : globals) (now : Q) (dir : option (list dir_entry)) (text : string) :
  debounced g now text = false ->
  suspicious text = false ->
  PyStr.startswith (PyStr.upper text) Config.COMMAND_PREFIX = true ->
  let cmd := PyStr.drop (String.length Config.COMMAND_PREFIX)
                        (PyStr.upper text) in
  let g1 := {| _last_scan_text := text; _last_scan_time := now;
               _shutting_down := _shutting_down g |} in
  handle_scan BASE_DIR mpv g now dir text
  = if negb (Config.mem cmd Config.COMMANDS)
    then (g1, [Log WARNING "Unknown command: %s" [cmd]])
    else (fst (_execute_command BASE_DIR mpv g1 cmd),
          Log INFO "Executing command: %s" [cmd]
            :: snd (_execute_command BASE_DIR mpv g1 cmd)).
Proof.
  intros Hd Hs Hp cmd g1.
  unfold Player.handle_scan; rewrite Hd, Hs, Hp.
  fold cmd; fold g1.
  destruct (negb (Config.mem cmd Config.COMMANDS)); [reflexivity|].
  destruct (_execute_command BASE_DIR mpv g1 cmd); reflexivity.
Qed.



End Dispatch.

Section Media.
Context {cm : PyStr.CaseMap}.
Variable BASE_DIR : string.
Import Player.

Lemma video_match_iff (text : string) (f : dir_entry) :
  video_match (PyStr.lower text) f = true <-> matches text f.
Proof.
  unfold video_match, matches.
  rewrite !andb_true_iff, mem_In, String.eqb_eq; tauto.
Qed.




End Media.

(** ** The shutdown flag and the watchers *)

Section Watchers.
Context {cm : PyStr.CaseMap}.
Variable BASE_DIR : string.
Import Player.




End Watchers.

(** ** The idle watcher *)

Section IdleWatcher.
Variable BASE_DIR : string.
Import Player RouterFacts.

Lemma show_splash_returns (b : bool) :
  show_splash BASE_DIR (Returns b)
  = [SplashGenerate; Ipc ["loadfile"; Config.SPLASH_IMAGE BASE_DIR];
     Log INFO "Showing splash screen" []].
Proof. reflexivity. Qed.

Lemma show_splash_generates_once (load : result bool) :
  List.length (filter is_generate (show_splash BASE_DIR load)) = 1%nat.
Proof. destruct load; reflexivity. Qed.


Lemma idle_turn_displays (w : watcher) (o : observation)
  (rest : list observation) (b : bool) :
  flag_seen o = false -> idle o = Returns true ->
  splash_load o = Returns b ->
  splash_showing w = false \/ minute o <> last_minute w ->
  idle_watcher_from BASE_DIR w (o :: rest)
  = (fst (idle_watcher_from BASE_DIR
            {| splash_showing := true; last_minute := minute o |} rest),
     ([SplashGenerate; Ipc ["loadfile"; Config.SPLASH_IMAGE BASE_DIR];
       Log INFO "Showing splash screen" []]
      ++ snd (idle_watcher_from BASE_DIR
                {| splash_showing := true; last_minute := minute o |} rest))
     %list).
Proof.
  intros Hf Hi Hl Hw; cbn [idle_watcher_from]; rewrite Hf, Hi.
  unfold idle_poll.
  assert (E : negb (splash_showing w)
              || negb (minute o =? last_minute w)%Z = true).
  { destruct Hw as [-> | Hm]; [reflexivity|].
    apply Z.eqb_neq in Hm; rewrite Hm, orb_true_r; reflexivity. }
  rewrite E, Hl, show_splash_returns; cbn [has_raised existsb is_raised orb].
  destruct (idle_watcher_from BASE_DIR _ rest); reflexivity.
Qed.

Lemma idle_turn_same_minute (w : watcher) (o : observation)
  (rest : list observation) :
  flag_seen o = false -> idle o = Returns true ->
  splash_showing w = true -> minute o = last_minute w ->
  idle_watcher_from BASE_DIR w (o :: rest) = idle_watcher_from BASE_DIR w rest.
Proof.
  intros Hf Hi Hs Hm; cbn [idle_watcher_from]; rewrite Hf, Hi.
  unfold idle_poll; rewrite Hs, Hm, Z.eqb_refl.
  cbn [negb orb has_raised existsb].
  destruct (idle_watcher_from BASE_DIR w rest); reflexivity.
Qed.

Lemma busy_turn_clears (w : watcher) (o : observation)
  (rest : list observation) :
  flag_seen o = false -> idle o = Returns false ->
  idle_watcher_from BASE_DIR w (o :: rest)
  = idle_watcher_from BASE_DIR
      {| splash_showing := false; last_minute := -1 |} rest.
Proof.
  intros Hf Hi; cbn [idle_watcher_from]; rewrite Hf, Hi.
  unfold idle_poll; cbn [has_raised existsb].
  destruct (idle_watcher_from BASE_DIR _ rest); reflexivity.
Qed.

(** Over turns in which nothing raises and no shutdown is seen, the loop
    generates the splash screen once for each turn that displays. *)
Lemma generations_count (w : watcher) (obs : list observation) :
  Forall quiet obs ->
  List.length (filter is_generate (snd (idle_watcher_from BASE_DIR w obs)))
  = display_count (on_display w) obs.
Proof.
  intros Hall; revert w.
  induction Hall as [|o obs (Hf & (bi & Hi) & (bl & Hl)) _ IH]; intros w;
    [reflexivity|].
  cbn [display_count]; unfold displays, shown_after; rewrite Hi.
  destruct bi.
  - destruct (splash_showing w) eqn:Hs.
    + destruct (minute o =? last_minute w)%Z eqn:Hm.
      * apply Z.eqb_eq in Hm.
        rewrite (idle_turn_same_minute w o obs Hf Hi Hs Hm), IH.
        unfold on_display; rewrite Hs, Hm, Z.eqb_refl; reflexivity.
      * assert (Hw : splash_showing w = false \/ minute o <> last_minute w)
          by (right; apply Z.eqb_neq; exact Hm).
        rewrite (idle_turn_displays w o obs bl Hf Hi Hl Hw).
        cbn [snd app filter is_generate List.length]; rewrite IH.
        unfold on_display; rewrite Hs, Hm; reflexivity.
    + assert (Hw : splash_showing w = false \/ minute o <> last_minute w)
        by (left; exact Hs).
      rewrite (idle_turn_displays w o obs bl Hf Hi Hl Hw).
      cbn [snd app filter is_generate List.length]; rewrite IH.
      unfold on_display; rewrite Hs; reflexivity.
  - rewrite (busy_turn_clears w o obs Hf Hi), IH; reflexivity.
Qed.


End IdleWatcher.

(** ** The decoder *)

Section Decoder.
Context {keys : Ecodes.KeyTable}.
Import Ecodes Scanner ScannerSpec DecoderFacts.









End Decoder.

(** ** The client *)

Section ClientProps.
Import MpvControl ClientFacts MpvControlSpec.
Context {codec : Codec}.

Lemma contains_newline_cons (c : ascii) (r : string) :
  PyStr.contains PyStr.newline (String c r)
  = Ascii.eqb "010"%char c || PyStr.contains PyStr.newline r.
Proof.
  cbn [PyStr.contains PyStr.newline PyStr.startswith].
  destruct r; rewrite andb_true_r; reflexivity.
Qed.



Lemma truthy_nonempty (s : string) : PyStr.truthy s = true <-> s <> "".
Proof.
  destruct s; simpl; split; intros H; try congruence; try discriminate.
Qed.

Lemma recv_loop_done (script : list recv_result) (data : string) :
  PyStr.contains PyStr.newline data = true ->
  recv_loop script data = inr data.
Proof.
  intros H; destruct script; cbn [recv_loop]; rewrite H; reflexivity.
Qed.














End ClientProps.

(** ** The idle query *)

Section IdleQuery.
Import MpvControl MpvControlSpec.
Context {codec : Codec}.




End IdleQuery.

(** * Examples *)

Module Examples.
Import Player MpvControl MpvControlSpec Sample.

#[local] Existing Instance ascii_case.
#[local] Existing Instance kernel_keys.
#[local] Existing Instance sample_codec.

Example unknown_command_no_call :
  handle_scan "/home/pi/kids" returning globals_init 1 (Some []) "CMD:FOO"
  = ({| _last_scan_text := "CMD:FOO"; _last_scan_time := 1;
        _shutting_down := false |},
     [Log WARNING "Unknown command: %s" ["FOO"]]).
Proof. reflexivity. Qed.

Example stop_then_splash :
  snd (handle_scan "/home/pi/kids" returning globals_init 1 (Some [])
         "Cmd:Stop")
  = [ Log INFO "Executing command: %s" ["STOP"];
      Ipc ["stop"]; SplashGenerate;
      Ipc ["loadfile"; "/home/pi/kids/assets/splash.png"];
      Log INFO "Showing splash screen" [] ].
Proof. reflexivity. Qed.

Example bambi_found :
  snd (handle_scan "/home/pi/kids" returning globals_init 1
         (Some [ {| name := "bambi.txt"; is_file := true |};
                 {| name := "Bambi.MP4"; is_file := true |} ]) "bambi")
  = [ Log INFO "Playing: %s" ["/home/pi/kids/media/Bambi.MP4"];
      Ipc ["loadfile"; "/home/pi/kids/media/Bambi.MP4"] ].
Proof. reflexivity. Qed.

Example dumbo_not_found :
  snd (handle_scan "/home/pi/kids" returning globals_init 1
         (Some [ {| name := "Bambi.mp4"; is_file := true |};
                 {| name := "dumbo.mp4"; is_file := false |} ]) "dumbo")
  = [Log WARNING "No video found for: %s" ["dumbo"]].
Proof. reflexivity. Qed.

Example pathlib_parts :
  Pathlib.suffix "Bambi.mp4" = ".mp4" /\ Pathlib.stem "Bambi.mp4" = "Bambi" /\
  Pathlib.suffix ".hidden" = "" /\ Pathlib.stem "a.tar.gz" = "a.tar" /\
  Pathlib.suffix "a." = "".
Proof. repeat split; reflexivity. Qed.

Example refused_connection_logged :
  _send refuses stop_cmd
  = (PNone, [Log WARNING "mpv socket not available" []]).
Proof. reflexivity. Qed.

Example float_subtraction_rounds :
  (PyFloat.sub 3 1 == 2)%Q /\
  (PyFloat.sub (4503622143116833 # 2251799813685248)
               (2951183903888349 # 295147905179352825856) == 2)%Q.
Proof. split; vm_compute; reflexivity. Qed.

Lemma suspicious_scan_never_dispatched_witness :
  (PyStr.contains "/" "CMD:PAUSE/../x" = true \/
   PyStr.contains ".." "CMD:PAUSE/../x" = true) /\
  snd (handle_scan "/home/pi/kids" returning globals_init 5
         (Some [{| name := "x.mp4"; is_file := true |}]) "CMD:PAUSE/../x")
  = [Log WARNING "Rejected suspicious scan input: %s" ["CMD:PAUSE/../x"]].
Proof.
  split; [left; reflexivity|].
  apply (suspicious_scan_never_dispatched "/home/pi/kids" returning
           globals_init 5
           (Some [{| name := "x.mp4"; is_file := true |}]) "CMD:PAUSE/../x").
  - left; reflexivity.
  - reflexivity.
Defined.

(** C1, as stated, fails: the text [a/b] scanned a second time one second
    after it was first scanned contains [/], yet the router does not
    reject it with the warning; the debounce step discards it first. *)
Lemma suspicious_rescan_debounced_not_rejected :
  PyStr.contains "/" "a/b" = true /\
  snd (handle_scan "/home/pi/kids" returning
         (fst (handle_scan "/home/pi/kids" returning globals_init 1
                 (Some []) "a/b"))
         2 (Some []) "a/b")
  = [Log DEBUG "Debounced duplicate scan: %s" ["a/b"]] /\
  snd (handle_scan "/home/pi/kids" returning
         (fst (handle_scan "/home/pi/kids" returning globals_init 1
                 (Some []) "a/b"))
         2 (Some []) "a/b")
  <> [Log WARNING "Rejected suspicious scan input: %s" ["a/b"]].
Proof.
  split; [reflexivity|split; [vm_compute; reflexivity|]].
  vm_compute; discriminate.
Qed.

Lemma debounce_accepts_iff_witness :
  (* the same text one second later is discarded with no change *)
  fst (handle_scan "/home/pi/kids" returning
         (fst (handle_scan "/home/pi/kids" returning globals_init 10
                 (Some []) "bambi"))
         11 (Some []) "bambi")
  = fst (handle_scan "/home/pi/kids" returning globals_init 10
           (Some []) "bambi") /\
  (* the same text three seconds later is accepted and stored *)
  _last_scan_time
    (fst (handle_scan "/home/pi/kids" returning
            (fst (handle_scan "/home/pi/kids" returning globals_init 10
                    (Some []) "bambi"))
            13 (Some []) "bambi"))
  = 13.
Proof.
  split.
  - apply (debounce_accepts_iff "/home/pi/kids" returning
             (fst (handle_scan "/home/pi/kids" returning globals_init 10
                     (Some []) "bambi"))
             11 (Some []) "bambi").
    vm_compute; reflexivity.
  - apply (debounce_accepts_iff "/home/pi/kids" returning
             (fst (handle_scan "/home/pi/kids" returning globals_init 10
                     (Some []) "bambi"))
             13 (Some []) "bambi").
    vm_compute; discriminate.
Defined.

(** C2, as stated, fails at the boundary: the same text scanned again
    exactly two seconds after it was accepted neither differs from the
    last text nor comes after more than the window - the difference of
    the two readings is 2, exactly and as computed - yet it is accepted
    and stored. *)
Lemma rescan_at_window_accepted :
  let g := fst (handle_scan "/home/pi/kids" returning globals_init 1
                  (Some []) "bambi") in
  ~ ("bambi" <> _last_scan_text g \/
     (Config.SCAN_DEBOUNCE_SECONDS < 3 - _last_scan_time g)%Q) /\
  ~ ("bambi" <> _last_scan_text g \/
     (Config.SCAN_DEBOUNCE_SECONDS < PyFloat.sub 3 (_last_scan_time g))%Q) /\
  snd (handle_scan "/home/pi/kids" returning g 3 (Some []) "bambi")
  <> [Log DEBUG "Debounced duplicate scan: %s" ["bambi"]] /\
  _last_scan_time
    (fst (handle_scan "/home/pi/kids" returning g 3 (Some []) "bambi")) = 3.
Proof.
  cbv zeta; split; [|split; [|split]].
  - intros [H | H].
    + apply H; reflexivity.
    + revert H; apply Qle_not_lt; vm_compute; discriminate.
  - intros [H | H].
    + apply H; reflexivity.
    + revert H; apply Qle_not_lt; vm_compute; discriminate.
  - vm_compute; discriminate.
  - vm_compute; reflexivity.
Qed.















End Examples.

(** * Further properties of the sources *)

(** ** scanner.py: what the decoder hands over *)

Section DecoderMore.
Context {keys : Ecodes.KeyTable}.
Import Ecodes Scanner ScannerSpec DecoderFacts.

Lemma rstrip_cons (c : ascii) (r : string) :
  PyStr.rstrip (String c r)
  = match PyStr.rstrip r with
    | EmptyString =>
        if PyStr.is_space c then EmptyString else String c EmptyString
    | String a b => String c (String a b)
    end.
Proof. cbn [PyStr.rstrip]; destruct (PyStr.rstrip r); reflexivity. Qed.

Lemma rstrip_idem (s : string) : PyStr.rstrip (PyStr.rstrip s) = PyStr.rstrip s.
Proof.
  induction s as [|c r IH]; [reflexivity|].
  rewrite (rstrip_cons c r).
  destruct (PyStr.rstrip r) as [|c' r'] eqn:Er.
  - destruct (PyStr.is_space c) eqn:Ec; [reflexivity|].
    rewrite rstrip_cons; cbn [PyStr.rstrip]; rewrite Ec; reflexivity.
  - rewrite rstrip_cons, IH; reflexivity.
Qed.

Lemma lstrip_head (s : string) :
  PyStr.lstrip s = "" \/
  exists c r, PyStr.lstrip s = String c r /\ PyStr.is_space c = false.
Proof.
  induction s as [|c r IH]; [left; reflexivity|].
  cbn [PyStr.lstrip]; destruct (PyStr.is_space c) eqn:Ec; [exact IH|].
  right; exists c, r; auto.
Qed.

Lemma rstrip_keeps_head (c : ascii) (r : string) :
  PyStr.is_space c = false ->
  exists r', PyStr.rstrip (String c r) = String c r'.
Proof.
  intros Hc; rewrite rstrip_cons.
  destruct (PyStr.rstrip r); [rewrite Hc|]; eexists; reflexivity.
Qed.

(** A stripped text that is not empty has no blank at either end. *)
Lemma strip_clean (s : string) :
  PyStr.truthy (PyStr.strip s) = true ->
  PyStr.lstrip (PyStr.strip s) = PyStr.strip s /\
  PyStr.rstrip (PyStr.strip s) = PyStr.strip s.
Proof.
  unfold PyStr.strip; intros Ht; split; [|apply rstrip_idem].
  destruct (lstrip_head s) as [He | (c & r & He & Hc)].
  - rewrite He in Ht; discriminate.
  - rewrite He; destruct (rstrip_keeps_head c r Hc) as [r' Hr].
    rewrite Hr; cbn [PyStr.lstrip]; rewrite Hc; reflexivity.
Qed.

Lemma on_event_out (st : decoder) (ev : input_event) :
  snd (on_event st ev) = [] \/
  (is_enter_down ev = true /\
   PyStr.truthy (PyStr.strip (buffer st)) = true /\
   snd (on_event st ev) = [PyStr.strip (buffer st)]).
Proof.
  unfold on_event, is_enter_down.
  remember (keymap_get KEYMAP (code ev)) as m eqn:Hm; clear Hm.
  destruct (type ev =? EV_KEY)%Z; cbn [negb andb]; [|left; reflexivity].
  destruct (negb (known (code ev))); [left; reflexivity|].
  destruct (negb (is_keystate (value ev))); [left; reflexivity|].
  destruct ((code ev =? KEY_LEFTSHIFT) || (code ev =? KEY_RIGHTSHIFT))%Z;
    [left; reflexivity|].
  destruct (value ev =? key_down)%Z; cbn [negb andb]; [|left; reflexivity].
  destruct (code ev =? KEY_ENTER)%Z; cbn [andb].
  - destruct (PyStr.truthy (PyStr.strip (buffer st))) eqn:Et;
      [right; auto | left; reflexivity].
  - destruct m as [[normal shifted]|]; left; reflexivity.
Qed.

(** Every text the decoder hands to the callback is non-empty and
    has no blank at either end, whatever the events and whatever state
    the decoder starts in. *)
Theorem decoder_texts_stripped (st : decoder) (evs : list input_event) :
  Forall (fun text => text <> "" /\
                      PyStr.lstrip text = text /\ PyStr.rstrip text = text)
         (snd (read_from st evs)).
Proof.
  revert st; induction evs as [|ev evs IH]; intros st; cbn [read_from].
  - constructor.
  - pose proof (on_event_out st ev) as Ho.
    destruct (on_event st ev) as [st1 out1].
    specialize (IH st1); destruct (read_from st1 evs) as [st2 out2].
    assert (H1 : Forall (fun text => text <> "" /\
                           PyStr.lstrip text = text /\
                           PyStr.rstrip text = text) out1).
    { cbn [snd] in Ho.
      destruct Ho as [-> | (_ & Ht & ->)]; constructor; [|constructor].
      split; [apply truthy_nonempty; exact Ht | exact (strip_clean _ Ht)]. }
    destruct (failed st1); cbn [snd] in *; [exact H1|].
    apply Forall_app; split; [exact H1 | exact IH].
Qed.

(** No text is handed over without a key-down of Enter: the texts
    are at most as many as the key-downs of Enter among the events. *)
Theorem decoder_texts_need_enter (st : decoder) (evs : list input_event) :
  (List.length (snd (read_from st evs))
   <= List.length (filter is_enter_down evs))%nat.
Proof.
  revert st; induction evs as [|ev evs IH]; intros st; cbn [read_from filter].
  - apply Nat.le_refl.
  - pose proof (on_event_out st ev) as Ho.
    destruct (on_event st ev) as [st1 out1].
    specialize (IH st1); destruct (read_from st1 evs) as [st2 out2].
    cbn [snd] in *.
    assert (H1 : (List.length out1
                  <= if is_enter_down ev then 1 else 0)%nat).
    { destruct Ho as [-> | (He & _ & ->)].
      - cbn [List.length]; lia.
      - rewrite He; cbn [List.length]; lia. }
    destruct (failed st1); cbn [snd].
    + destruct (is_enter_down ev); cbn [List.length]; lia.
    + rewrite length_app.
      destruct (is_enter_down ev); cbn [List.length]; lia.
Qed.

Lemma on_event_inert (st : decoder) (ev : input_event) :
  inert ev = true -> on_event st ev = (st, []).
Proof.
  unfold inert, on_event, is_shift_key.
  remember (keymap_get KEYMAP (code ev)) as m eqn:Hm; clear Hm.
  destruct (type ev =? EV_KEY)%Z; cbn [negb andb orb]; [|reflexivity].
  destruct (known (code ev)); cbn [negb andb orb]; [|discriminate].
  destruct (is_keystate (value ev)); cbn [negb andb orb]; [|discriminate].
  destruct ((code ev =? KEY_LEFTSHIFT) || (code ev =? KEY_RIGHTSHIFT))%Z;
    cbn [negb andb orb]; [discriminate|].
  destruct (value ev =? key_down)%Z; cbn [negb andb orb]; [|reflexivity].
  destruct (code ev =? KEY_ENTER)%Z; cbn [negb andb orb]; [discriminate|].
  destruct m as [[normal shifted]|]; [discriminate | reflexivity].
Qed.

(** Events that are not key events, and among the key events that
    [categorize] accepts the key-ups and key-holds of non-shift keys and
    the key-downs of keys missing from the table, can be removed from
    the stream at any place without changing what the decoder hands over
    or the state it ends in. *)
Theorem decoder_ignores_inert (st : decoder) (evs : list input_event) :
  failed st = None ->
  read_from st (filter (fun ev => negb (inert ev)) evs) = read_from st evs.
Proof.
  revert st; induction evs as [|ev evs IH]; intros st Hf; [reflexivity|].
  cbn [filter]; destruct (inert ev) eqn:Ei; cbn [negb read_from].
  - rewrite (on_event_inert st ev Ei), Hf, (IH st Hf).
    destruct (read_from st evs); reflexivity.
  - destruct (on_event st ev) as [st1 out1].
    destruct (failed st1) eqn:Hf1; [reflexivity|].
    rewrite (IH st1 Hf1); reflexivity.
Qed.

End DecoderMore.

Section DecoderChars.
Context {keys : Ecodes.KeyTable}.
Import Ecodes Scanner ScannerSpec DecoderFacts.

Lemma all_printable_app (a b : string) :
  all_printable (a ++ b) = all_printable a && all_printable b.
Proof.
  induction a as [|c a IH]; [reflexivity|].
  cbn [String.append all_printable]; rewrite IH, andb_assoc; reflexivity.
Qed.

Lemma all_printable_lstrip (s : string) :
  all_printable s = true -> all_printable (PyStr.lstrip s) = true.
Proof.
  induction s as [|c r IH]; [reflexivity|].
  cbn [all_printable PyStr.lstrip]; intros H.
  destruct (PyStr.is_space c); [|exact H].
  apply andb_true_iff in H as [_ H]; exact (IH H).
Qed.

Lemma all_printable_rstrip (s : string) :
  all_printable s = true -> all_printable (PyStr.rstrip s) = true.
Proof.
  induction s as [|c r IH]; [reflexivity|].
  rewrite rstrip_cons; cbn [all_printable]; intros H.
  apply andb_true_iff in H as [Hc Hr]; specialize (IH Hr).
  destruct (PyStr.rstrip r) as [|a b].
  - destruct (PyStr.is_space c); [reflexivity|].
    cbn [all_printable]; rewrite Hc; reflexivity.
  - change (printable c && all_printable (String a b) = true).
    rewrite Hc, IH; reflexivity.
Qed.

Lemma keymap_get_forall (P : string * string -> bool)
  (m : list (Z * (string * string))) (k : Z) (v : string * string) :
  forallb (fun kv => P (snd kv)) m = true ->
  keymap_get m k = Some v -> P v = true.
Proof.
  induction m as [|[k' v'] m IH]; cbn [keymap_get forallb]; [discriminate|].
  intros H; apply andb_true_iff in H as [Hv Hm].
  destruct (k' =? k)%Z; [intros [= <-]; exact Hv | exact (IH Hm)].
Qed.

Lemma keymap_printable (k : Z) (normal shifted : string) :
  keymap_get KEYMAP k = Some (normal, shifted) ->
  all_printable normal = true /\ all_printable shifted = true.
Proof.
  intros H; apply andb_true_iff.
  apply (keymap_get_forall
           (fun v => all_printable (fst v) && all_printable (snd v))
           KEYMAP k (normal, shifted)); [vm_compute; reflexivity | exact H].
Qed.

Lemma on_event_printable (st : decoder) (ev : input_event) :
  all_printable (buffer st) = true ->
  all_printable (buffer (fst (on_event st ev))) = true /\
  Forall (fun text => all_printable text = true) (snd (on_event st ev)).
Proof.
  intros Hb; unfold on_event.
  destruct (keymap_get KEYMAP (code ev)) as [[normal shifted]|] eqn:Hm.
  2: { repeat match goal with
              | |- context [if ?b then _ else _] => destruct b
              end; cbn [fst snd buffer fail]; split;
         try exact Hb; try reflexivity; repeat constructor.
       - apply all_printable_rstrip, all_printable_lstrip; exact Hb. }
  destruct (keymap_printable _ _ _ Hm) as [Hn Hs].
  repeat match goal with
         | |- context [if ?b then _ else _] => destruct b
         end; cbn [fst snd buffer fail]; split;
    try exact Hb; try reflexivity; repeat constructor;
    try (apply all_printable_rstrip, all_printable_lstrip; exact Hb);
    rewrite all_printable_app, Hb; cbn [andb]; assumption.
Qed.

Lemma read_from_printable (st : decoder) (evs : list input_event) :
  all_printable (buffer st) = true ->
  Forall (fun text => all_printable text = true) (snd (read_from st evs)).
Proof.
  revert st; induction evs as [|ev evs IH]; intros st Hb; cbn [read_from].
  - constructor.
  - destruct (on_event_printable st ev Hb) as [Hb1 Ho].
    destruct (on_event st ev) as [st1 out1].
    specialize (IH st1 Hb1); destruct (read_from st1 evs) as [st2 out2].
    destruct (failed st1); cbn [fst snd] in *; [exact Ho|].
    apply Forall_app; auto.
Qed.

(** Every text the decoder hands to the callback consists of
    printable 7-bit characters (codes 32 to 126) only. *)
Theorem decoder_texts_printable (evs : list input_event) :
  Forall (fun text => all_printable text = true) (snd (_read_loop evs)).
Proof.
  apply read_from_printable; reflexivity.
Qed.

End DecoderChars.

(** ** scanner.py: the reconnect loop; player.py: the watched keyboards *)

Section Reconnect.
Context {keys : Ecodes.KeyTable}.
Import ScannerIO.

Lemma owed_after_app (owed : bool) (a b : list io) :
  owed_after owed (a ++ b)
  = match owed_after owed a with
    | Some owed' => owed_after owed' b
    | None => None
    end.
Proof.
  revert owed; induction a as [|e a IH]; intros owed; [reflexivity|].
  cbn [app owed_after].
  destruct e as [lvl fmt args | p ok | p ok | q | text];
    try destruct ok; destruct owed; auto.
Qed.

Lemma held_after_app (held : bool) (a b : list io) :
  held_after held (a ++ b)
  = match held_after held a with
    | Some held' => held_after held' b
    | None => None
    end.
Proof.
  revert held; induction a as [|e a IH]; intros held; [reflexivity|].
  cbn [app held_after].
  destruct e as [lvl fmt args | p ok | p ok | q | text];
    try destruct ok; destruct held; cbn [negb]; auto.
Qed.

Lemma owed_after_scanned (texts : list string) :
  owed_after true (scanned texts) = Some true.
Proof.
  induction texts as [|t texts IH]; [reflexivity | exact IH].
Qed.

Lemma held_after_scanned (texts : list string) :
  held_after true (scanned texts) = Some true.
Proof.
  induction texts as [|t texts IH]; [reflexivity | exact IH].
Qed.

Lemma owed_after_turn (t : turn) :
  owed_after false (fst (read_scans_turn t)) = Some false.
Proof.
  unfold read_scans_turn.
  generalize (turn_end t); intros e.
  generalize (snd (Scanner._read_loop (events t))); intros texts.
  destruct (find_scanner (devices t)) as [dev|]; [|reflexivity].
  destruct (grab_fails t); [reflexivity|].
  cbn [fst].
  rewrite !owed_after_app; cbn [owed_after].
  rewrite owed_after_app, owed_after_scanned.
  destruct e; reflexivity.
Qed.

Lemma held_after_turn (t : turn) :
  ungrab_fails t = false ->
  held_after false (fst (read_scans_turn t)) = Some false.
Proof.
  intros Hu; unfold read_scans_turn; rewrite Hu.
  generalize (turn_end t); intros e.
  generalize (snd (Scanner._read_loop (events t))); intros texts.
  destruct (find_scanner (devices t)) as [dev|]; [|reflexivity].
  destruct (grab_fails t); [reflexivity|].
  cbn [fst].
  rewrite !held_after_app; cbn [held_after].
  rewrite held_after_app, held_after_scanned.
  destruct e; reflexivity.
Qed.

Lemma sleeps_scanned (texts : list string) :
  filter is_sleep (scanned texts) = [].
Proof.
  induction texts as [|t texts IH]; [reflexivity | exact IH].
Qed.

(** The reconnect loop keeps the grab discipline over any number of
    turns.  In terms of its calls: it never calls [grab] while an
    [ungrab] is owed for an earlier one, hands texts to the callback
    only between a [grab] that succeeded and its [ungrab], calls
    [ungrab] before every sleep that follows a successful [grab], and
    owes none at the end - whether the read loop ended with the device
    going away or with another exception.  In terms of the device: when
    no [ungrab] fails it is never grabbed while held, never slept on
    while held and not held at the end.  Each turn ends with its only
    sleep, of the reconnect interval. *)
Theorem read_scans_releases_device :
  (forall turns, owed_after false (read_scans turns) = Some false) /\
  (forall turns,
     Forall (fun t => ungrab_fails t = false) turns ->
     held_after false (read_scans turns) = Some false) /\
  (forall t, exists before,
     fst (read_scans_turn t)
     = (before ++ [Sleep Config.SCANNER_RECONNECT_SECONDS])%list /\
     filter is_sleep before = []).
Proof.
  split; [|split].
  - induction turns as [|t turns IH]; [reflexivity|].
    cbn [read_scans].
    pose proof (owed_after_turn t) as Ht.
    destruct (read_scans_turn t) as [out goes_on]; cbn [fst] in Ht.
    destruct goes_on; [|exact Ht].
    rewrite owed_after_app, Ht; exact IH.
  - induction 1 as [|t turns Hu _ IH]; [reflexivity|].
    cbn [read_scans].
    pose proof (held_after_turn t Hu) as Ht.
    destruct (read_scans_turn t) as [out goes_on]; cbn [fst] in Ht.
    destruct goes_on; [|exact Ht].
    rewrite held_after_app, Ht; exact IH.
  - intros t; unfold read_scans_turn.
    generalize (turn_end t); intros e.
    generalize (snd (Scanner._read_loop (events t))); intros texts.
    destruct (find_scanner (devices t)) as [dev|].
    + destruct (grab_fails t); cbn [fst].
      * exists [ Note INFO "Found scanner: %s at %s" [name dev; path dev];
                 Grab (path dev) false;
                 Note WARNING "Could not grab scanner, retrying..." [] ].
        split; reflexivity.
      * exists ([ Note INFO "Found scanner: %s at %s" [name dev; path dev];
                  Grab (path dev) true;
                  Note INFO "Grabbed scanner exclusively" [] ]
                ++ scanned texts
                ++ match e with
                   | Disconnected =>
                       [Note WARNING
                             "Scanner disconnected, will reconnect..." []]
                   | Crashed => []
                   end
                ++ [Ungrab (path dev) (negb (ungrab_fails t))])%list.
        split.
        { rewrite <- !app_assoc; reflexivity. }
        rewrite !filter_app, sleeps_scanned.
        destruct e; reflexivity.
    + exists [Note INFO "Scanner not found, retrying in %ss..." ["3.0"]].
      split; reflexivity.
Qed.

(** The exit-key watcher never watches the scanner: a device whose
    name holds the scanner's name is not among the selected keyboards -
    in particular not the device [find_scanner] returns - and every
    selected keyboard can send the Q key. *)
Theorem keyboards_exclude_scanner (devs : list input_device) :
  (forall dev, In dev (keyboards devs) ->
     In dev devs /\
     PyStr.contains Config.SCANNER_DEVICE_NAME (name dev) = false /\
     exists codes, In (Ecodes.EV_KEY, codes) (capabilities dev) /\
                   In Ecodes.KEY_Q codes) /\
  (forall dev, find_scanner devs = Some dev -> ~ In dev (keyboards devs)).
Proof.
  split.
  - intros dev Hin; unfold keyboards in Hin.
    apply filter_In in Hin as [Hin H].
    apply andb_true_iff in H as [Hn Hc].
    apply negb_true_iff in Hn.
    split; [exact Hin|split; [exact Hn|]].
    destruct (find _ (capabilities dev)) as [[k codes]|] eqn:Ef;
      [|discriminate].
    exists codes; split.
    + pose proof (find_some _ _ Ef) as [Hk He]; cbn [fst] in He.
      apply Z.eqb_eq in He; subst k; exact Hk.
    + apply existsb_exists in Hc as (x & Hx & Hq).
      apply Z.eqb_eq in Hq; subst x; exact Hx.
  - intros dev Hf Hin; unfold find_scanner in Hf.
    apply find_some in Hf as [_ Hs].
    unfold keyboards in Hin; apply filter_In in Hin as [_ H].
    rewrite Hs in H; discriminate.
Qed.

End Reconnect.

(** ** player.py: more on [handle_scan] *)

Section RouterMore.
Context {cm : PyStr.CaseMap}.
Variable BASE_DIR : string.
Import Player RouterFacts.

(** A text held in front of the scanner acts once: after a text was
    accepted at some reading of the clock, any run of scans of the same
    text, each at a reading whose computed difference from that one is
    less than the debounce window, leaves the state as it was and only
    logs debug lines - no call, no splash screen, no shutdown - however
    the helpers and the media directory would have behaved. *)
Theorem duplicate_burst_discarded
  (g : globals) (scans : list scan) :
  Forall (fun s => scanned_text s = _last_scan_text g /\
                   (PyFloat.sub (at_time s) (_last_scan_time g)
                    < Config.SCAN_DEBOUNCE_SECONDS)%Q) scans ->
  scan_all BASE_DIR g scans
  = (g, map (fun s => Log DEBUG "Debounced duplicate scan: %s"
                          [scanned_text s]) scans).
Proof.
  induction 1 as [|s scans [Ht Hq] _ IH]; [reflexivity|].
  cbn [scan_all map].
  assert (Hd : debounced g (at_time s) (scanned_text s) = true)
    by (apply debounced_iff; auto).
  unfold Player.handle_scan; rewrite Hd, IH; reflexivity.
Qed.

(** The shutdown flag after a scan: it is raised exactly when it was
    raised before or the scan passed the debounce step, held no path
    separator or parent-directory token, and reads [CMD:EXIT] in upper
    case.  No other scan raises it and no scan lowers it. *)
Theorem handle_scan_flag_exact
  (mpv : list string -> result bool)
  (g : globals) (now : Q) (dir : option (list dir_entry)) (text : string) :
  _shutting_down (fst (handle_scan BASE_DIR mpv g now dir text))
  = _shutting_down g
    || (negb (debounced g now text) && negb (suspicious text)
        && String.eqb (PyStr.upper text) "CMD:EXIT").
Proof.
  destruct (debounced g now text) eqn:Hd.
  { unfold Player.handle_scan; rewrite Hd; cbn [fst negb andb].
    rewrite orb_false_r; reflexivity. }
  destruct (suspicious text) eqn:Hs.
  { unfold Player.handle_scan; rewrite Hd, Hs; cbn [fst negb andb].
    rewrite orb_false_r; reflexivity. }
  cbn [negb andb].
  destruct (PyStr.startswith (PyStr.upper text) Config.COMMAND_PREFIX) eqn:Hp.
  - rewrite (handle_scan_command BASE_DIR mpv g now dir text Hd Hs Hp).
    pose proof (startswith_split _ _ Hp) as Hu.
    set (cmd := PyStr.drop (String.length Config.COMMAND_PREFIX)
                           (PyStr.upper text)) in *.
    assert (He : String.eqb (PyStr.upper text) "CMD:EXIT"
                 = String.eqb cmd "EXIT").
    { rewrite Hu; reflexivity. }
    rewrite He.
    destruct (Config.mem cmd Config.COMMANDS) eqn:Hm; cbn [negb fst].
    + rewrite execute_command_flag; reflexivity.
    + destruct (String.eqb cmd "EXIT") eqn:Ee.
      * apply String.eqb_eq in Ee; rewrite Ee in Hm; discriminate.
      * rewrite orb_false_r; reflexivity.
  - assert (He : String.eqb (PyStr.upper text) "CMD:EXIT" = false).
    { destruct (String.eqb (PyStr.upper text) "CMD:EXIT") eqn:Ee;
        [|reflexivity].
      apply String.eqb_eq in Ee; rewrite Ee in Hp; discriminate. }
    rewrite He, orb_false_r.
    unfold Player.handle_scan; rewrite Hd, Hs, Hp.
    destruct (find_video dir text) as [[video|]|e]; reflexivity.
Qed.

(** What a scan can send to the media player: at most two commands,
    each either one of the eight fixed commands (the seven of the
    command codes and the load of the splash image) or the load of a
    file of the media directory, named by the directory's own entry.  No
    text makes the router load a path that is not such an entry. *)
Theorem handle_scan_sends_known_commands
  (mpv : list string -> result bool)
  (g : globals) (now : Q) (media : option (list dir_entry)) (text : string) :
  (List.length (ipc_calls (snd (handle_scan BASE_DIR mpv g now media text)))
   <= 2)%nat /\
  forall c,
    In c (ipc_calls (snd (handle_scan BASE_DIR mpv g now media text))) ->
    In c (fixed_commands BASE_DIR) \/
    exists dir f,
      media = Some dir /\ In f dir /\ is_file f = true /\
      c = ["loadfile"; Config.MEDIA_DIR BASE_DIR ++ "/" ++ name f].
Proof.
  unfold Player.handle_scan.
  destruct (debounced g now text); [split; [cbn; lia | intros c []]|].
  destruct (suspicious text); [split; [cbn; lia | intros c []]|].
  destruct (PyStr.startswith _ _).
  - destruct (negb _); [split; [cbn; lia | intros c []]|].
    unfold _execute_command, fixed_commands, show_splash, send, and_then,
      helper.
    repeat match goal with
           | |- context [if String.eqb ?a ?b then _ else _] =>
               destruct (String.eqb a b)
           end;
      repeat match goal with
             | |- context [raised_by (mpv ?c)] => destruct (mpv c)
             end;
      cbn [fst snd ipc_calls List.length raised_by has_raised existsb
           is_raised orb app];
      (split; [lia|]); intros c Hc; left; cbn [In] in *;
      repeat match goal with
             | H : _ \/ _ |- _ => destruct H as [H | H]
             | H : False |- _ => destruct H
             end; subst c; auto 10.
  - destruct (find_video media text) as [[video|]|e] eqn:Ef;
      [|split; [cbn; lia | intros c []]|split; [cbn; lia | intros c []]].
    unfold send, helper.
    split; [destruct (mpv _); cbn; lia|].
    intros c Hc.
    assert (Hc' : c = MpvControl.load_file_cmd (path_str BASE_DIR video)).
    { destruct (mpv _); cbn in Hc; destruct Hc as [<- | []]; reflexivity. }
    right; unfold find_video in Ef.
    destruct media as [dir|]; [|discriminate].
    injection Ef as Ef; apply find_some in Ef as [Hin Hm].
    unfold video_match in Hm.
    apply andb_true_iff in Hm as [Hm _]; apply andb_true_iff in Hm as [Hf _].
    exists dir, video; auto.
Qed.

End RouterMore.

(** ** player.py: more on [find_video] *)

Section FindVideo.
Context {cm : PyStr.CaseMap}.
Import Player.

Lemma take_drop (n : nat) (s : string) :
  Pathlib.take n s ++ PyStr.drop n s = s.
Proof.
  revert s; induction n as [|n IH]; intros s; [reflexivity|].
  destruct s as [|c r]; [reflexivity|].
  cbn [Pathlib.take PyStr.drop String.append]; rewrite IH; reflexivity.
Qed.

(** The stem and the suffix of a name put together give the name back. *)
Lemma stem_suffix (name : string) :
  Pathlib.stem name ++ Pathlib.suffix name = name.
Proof.
  unfold Pathlib.stem, Pathlib.suffix.
  destruct (Pathlib.split_at name);
    [apply take_drop | apply append_nil_r].
Qed.







(** What [find_video] returns is an entry of the directory that is
    a file and whose name is a stem followed by a suffix, the stem equal
    to the text when both are put in lower case and the suffix, in
    lower case, one of the supported extensions. *)
Theorem find_video_sound
  (media : option (list dir_entry)) (text : string) (f : dir_entry) :
  find_video media text = Returns (Some f) ->
  exists dir stem suffix,
    media = Some dir /\ In f dir /\ is_file f = true /\
    name f = stem ++ suffix /\
    stem = Pathlib.stem (name f) /\ suffix = Pathlib.suffix (name f) /\
    PyStr.lower stem = PyStr.lower text /\
    In (PyStr.lower suffix) Config.VIDEO_EXTENSIONS.
Proof.
  unfold find_video; destruct media as [dir|]; [|discriminate].
  intros [= Hf]; apply find_some in Hf as [Hin Hm].
  apply video_match_iff in Hm as (Hfile & Hext & Hstem).
  exists dir, (Pathlib.stem (name f)), (Pathlib.suffix (name f)).
  rewrite stem_suffix; repeat split; auto.
Qed.


End FindVideo.

(** ** player.py: the loops *)

Section Loops.
Context {cm : PyStr.CaseMap}.
Variable BASE_DIR : string.
Import Player PlayerLoops RouterFacts.

Lemma set_when_raised (g : globals) :
  _shutting_down g = true -> set_shutting_down g = g.
Proof. destruct g; cbn; intros ->; reflexivity. Qed.

Lemma watch_one_event_flag (g : globals) (ev : Ecodes.input_event) :
  _shutting_down (fst (_watch_one_event g ev))
  = _shutting_down g || is_exit_down ev.
Proof.
  unfold _watch_one_event, is_exit_down.
  destruct (_shutting_down g) eqn:Hg; [exact Hg|].
  destruct ((Ecodes.type ev =? Ecodes.EV_KEY) && (Ecodes.value ev =? 1))%Z;
    cbn [andb orb]; [|exact Hg].
  destruct (existsb (Z.eqb (Ecodes.code ev)) EXIT_KEYS); [reflexivity|exact Hg].
Qed.

Lemma raise_if_flag (b : bool) (g : globals) :
  _shutting_down (raise_if b g) = _shutting_down g || b.
Proof.
  destruct b; cbn; [rewrite orb_true_r | rewrite orb_false_r]; reflexivity.
Qed.

(** The watcher of one keyboard ends with the shutdown flag raised
    exactly when it was raised at the start, another task raised it
    meanwhile, or one of the events is a key-down of Q or ESC; key-ups,
    key-holds and other keys never raise it. *)
Theorem watch_one_raises_on_exit_key (g : globals) (events : list watched) :
  _shutting_down (fst (_watch_one g events))
  = _shutting_down g
    || existsb (fun w => raised_meanwhile w || is_exit_down (event w)) events.
Proof.
  revert g; induction events as [|w rest IH]; intros g; cbn [_watch_one existsb].
  - rewrite orb_false_r; reflexivity.
  - pose proof (watch_one_event_flag (raise_if (raised_meanwhile w) g) (event w))
      as Hf.
    rewrite raise_if_flag in Hf.
    destruct (_watch_one_event _ (event w)) as [g1 t1]; cbn [fst] in Hf.
    destruct (_shutting_down g1) eqn:H1.
    + cbn [fst]; rewrite H1.
      destruct (_shutting_down g), (raised_meanwhile w),
        (is_exit_down (event w)); cbn in *; try reflexivity; discriminate.
    + specialize (IH g1).
      destruct (_watch_one g1 rest) as [g2 t2]; cbn [fst] in *.
      rewrite IH, H1.
      symmetry in Hf; apply orb_false_iff in Hf as [Hf He].
      apply orb_false_iff in Hf as [Hg Hr].
      rewrite Hg, Hr, He; reflexivity.
Qed.

(** Once the keyboard reader has raised the shutdown flag - it
    handled an accepted EXIT line - it handles no further line: the
    lines that follow change neither the state nor the effects. *)
Theorem keyboard_reader_stops_after_exit {codec : MpvControl.Codec}
  (g : globals) (input later : list stdin_line) :
  _shutting_down (fst (fst (_keyboard_reader BASE_DIR g input))) = true ->
  _keyboard_reader BASE_DIR g (input ++ later)
  = _keyboard_reader BASE_DIR g input.
Proof.
  revert g; induction input as [|l rest IH]; intros g.
  - cbn [_keyboard_reader fst app]; intros Hg.
    destruct later as [|l later]; [reflexivity|].
    cbn [_keyboard_reader]; rewrite Hg; reflexivity.
  - cbn [_keyboard_reader app].
    destruct (_shutting_down g); [reflexivity|].
    destruct (negb (PyStr.truthy (line l))); [reflexivity|].
    destruct (MpvControl.decode (line l)) as [decoded|]; [|reflexivity].
    destruct (PyStr.truthy (PyStr.strip decoded)); [|apply IH].
    destruct (handle_scan BASE_DIR _ _ (now l) (dir l) _) as [g1 t1].
    destruct (raised t1); [reflexivity|].
    specialize (IH g1).
    destruct (_keyboard_reader BASE_DIR g1 rest) as [[g2 t2] e2].
    cbn [fst] in *; intros H2; rewrite (IH H2); reflexivity.
Qed.

(** The idle watcher stops at the first turn whose loop test sees
    the shutdown flag: what would have been observed from then on
    changes neither its effects nor its state. *)
Theorem idle_watcher_stops_at_flag
  (w : watcher) (obs later : list observation) (o : observation) :
  flag_seen o = true ->
  idle_watcher_from BASE_DIR w (obs ++ o :: later)
  = idle_watcher_from BASE_DIR w obs.
Proof.
  intros Ho; revert w; induction obs as [|o1 obs IH]; intros w.
  - cbn [app idle_watcher_from]; rewrite Ho; reflexivity.
  - cbn [app idle_watcher_from].
    destruct (flag_seen o1); [reflexivity|].
    destruct (idle o1) as [i|e]; [|reflexivity].
    destruct (idle_poll BASE_DIR i (minute o1) (splash_load o1) w)
      as [w1 t1].
    destruct (has_raised t1); [reflexivity|].
    rewrite IH; reflexivity.
Qed.

Lemma display_count_idle (shown : option Z) (obs : list observation) :
  Forall (fun o => idle o = Returns true) obs ->
  display_count shown obs = minute_changes shown (map minute obs).
Proof.
  intros Hall; revert shown.
  induction Hall as [|o obs Hi _ IH]; intros shown; [reflexivity|].
  cbn [display_count map minute_changes]; unfold displays, shown_after.
  rewrite Hi, IH.
  destruct shown as [m0|]; [|reflexivity].
  destruct (minute o =? m0)%Z; reflexivity.
Qed.

(** While the player stays idle, no shutdown is seen and the load
    of the splash screen returns, the idle watcher generates the splash
    screen once at the first turn and once more at every turn whose
    minute differs from the minute of the turn before: the number of
    generations is the number of minute changes. *)
Theorem idle_watcher_generations (obs : list observation) :
  Forall (fun o => flag_seen o = false /\ idle o = Returns true /\
                   exists b, splash_load o = Returns b) obs ->
  List.length (filter is_generate (snd (idle_watcher BASE_DIR obs)))
  = minute_changes None (map minute obs).
Proof.
  intros Hall.
  assert (Hq : Forall quiet obs).
  { eapply Forall_impl; [|exact Hall].
    intros o (Hf & Hi & Hl); split; [exact Hf|split; [|exact Hl]].
    exists true; exact Hi. }
  assert (Hi : Forall (fun o => idle o = Returns true) obs).
  { eapply Forall_impl; [|exact Hall]; intros o (_ & Hi & _); exact Hi. }
  unfold idle_watcher.
  rewrite (generations_count BASE_DIR watcher_init obs Hq).
  exact (display_count_idle None obs Hi).
Qed.

End Loops.

(** ** player.py: the start of [run] *)

Section Startup.
Import PlayerLoops.

Lemma wait_for_socket_found (a k0 k : nat) (seen : nat -> bool) :
  fst (wait_for_socket a k0 seen) = Some k <->
  (k0 <= k < k0 + a)%nat /\ seen k = true /\
  forall j, (k0 <= j < k)%nat -> seen j = false.
Proof.
  revert k0; induction a as [|a IH]; intros k0; cbn [wait_for_socket].
  - split; [discriminate | intros [H _]; lia].
  - destruct (seen k0) eqn:E0.
    + cbn [fst]; split.
      * intros [= <-]; split; [lia|split; [exact E0|]].
        intros j Hj; lia.
      * intros (Hk & Hs & Hb); f_equal.
        destruct (Nat.eq_dec k0 k) as [|Hne]; [assumption|].
        rewrite (Hb k0) in E0; [discriminate | lia].
    + specialize (IH (S k0)).
      destruct (wait_for_socket a (S k0) seen) as [found naps].
      cbn [fst] in *; rewrite IH; split.
      * intros (Hk & Hs & Hb); split; [lia|split; [exact Hs|]].
        intros j Hj; destruct (Nat.eq_dec j k0) as [->|]; [exact E0|].
        apply Hb; lia.
      * intros (Hk & Hs & Hb); split; [|split; [exact Hs|]].
        -- destruct (Nat.eq_dec k0 k) as [<-|]; [congruence | lia].
        -- intros j Hj; apply Hb; lia.
Qed.

Lemma wait_for_socket_none (a k0 : nat) (seen : nat -> bool) :
  fst (wait_for_socket a k0 seen) = None <->
  forall j, (k0 <= j < k0 + a)%nat -> seen j = false.
Proof.
  revert k0; induction a as [|a IH]; intros k0; cbn [wait_for_socket].
  - split; [intros _ j Hj; lia | reflexivity].
  - destruct (seen k0) eqn:E0.
    + cbn [fst]; split; [discriminate|].
      intros H; rewrite (H k0) in E0; [discriminate | lia].
    + specialize (IH (S k0)).
      destruct (wait_for_socket a (S k0) seen) as [found naps].
      cbn [fst] in *; rewrite IH; split; intros H j Hj.
      * destruct (Nat.eq_dec j k0) as [->|]; [exact E0 | apply H; lia].
      * apply H; lia.
Qed.

(** The sleeps of the wait: one of 0.25 s after every check that did not
    find the socket. *)
Lemma wait_for_socket_naps (a k0 : nat) (seen : nat -> bool) :
  snd (wait_for_socket a k0 seen)
  = repeat (Nap (1 # 4))
      (match fst (wait_for_socket a k0 seen) with
       | Some k => k - k0
       | None => a
       end).
Proof.
  revert k0; induction a as [|a IH]; intros k0; cbn [wait_for_socket].
  - reflexivity.
  - destruct (seen k0) eqn:E0.
    + cbn [fst snd]; rewrite Nat.sub_diag; reflexivity.
    + specialize (IH (S k0)).
      pose proof (fun k => wait_for_socket_found a (S k0) k seen) as Hf.
      destruct (wait_for_socket a (S k0) seen) as [found naps].
      cbn [fst snd] in *; rewrite IH.
      destruct found as [k|]; [|reflexivity].
      destruct (proj1 (Hf k) eq_refl) as (Hk & _).
      replace (k - k0)%nat with (S (k - S k0)) by lia; reflexivity.
Qed.

(** The wait for the control socket at startup: it succeeds at the
    first of the twenty checks that finds the socket, having slept
    0.25 s after each check before it, and it gives up exactly when none
    of the twenty checks finds it, having slept twenty times.  When it
    gives up, [run] logs the error and terminates the player without
    showing the splash screen; when it succeeds, [run] shows the splash
    screen right after the wait. *)
Theorem socket_wait_bounded (seen : nat -> bool) :
  (forall k, fst (socket_ready seen) = Some k <->
     (k < 20)%nat /\ seen k = true /\
     forall j, (j < k)%nat -> seen j = false) /\
  (fst (socket_ready seen) = None <->
   forall j, (j < 20)%nat -> seen j = false) /\
  (forall k, fst (socket_ready seen) = Some k ->
     snd (socket_ready seen) = repeat (Nap (1 # 4)) k) /\
  (fst (socket_ready seen) = None ->
   snd (socket_ready seen) = repeat (Nap (1 # 4)) 20) /\
  (forall stale k, fst (socket_ready seen) = Some k ->
     run_startup stale seen
     = ([MakeMediaDir] ++ (if stale then [UnlinkSocket] else [])
        ++ [Say INFO "Starting mpv..."; Launch]
        ++ repeat (Nap (1 # 4)) k
        ++ [Say INFO "mpv is ready"; ShowSplash])%list) /\
  (forall stale, fst (socket_ready seen) = None ->
     run_startup stale seen
     = ([MakeMediaDir] ++ (if stale then [UnlinkSocket] else [])
        ++ [Say INFO "Starting mpv..."; Launch]
        ++ repeat (Nap (1 # 4)) 20
        ++ [Say ERROR "mpv socket did not appear, exiting";
            TerminateMpv])%list).
Proof.
  assert (Hnaps := wait_for_socket_naps 20 0 seen).
  fold (socket_ready seen) in Hnaps.
  split; [|split; [|split; [|split; [|split]]]].
  - unfold socket_ready; intros k; rewrite wait_for_socket_found; split.
    + intros (Hk & Hs & Hb); split; [lia|split; [exact Hs|]].
      intros j Hj; apply Hb; lia.
    + intros (Hk & Hs & Hb); split; [lia|split; [exact Hs|]].
      intros j Hj; apply Hb; lia.
  - unfold socket_ready; rewrite wait_for_socket_none.
    split; intros H j Hj; apply H; lia.
  - intros k Hk; rewrite Hnaps, Hk, Nat.sub_0_r; reflexivity.
  - intros Hn; rewrite Hnaps, Hn; reflexivity.
  - intros stale k Hk; unfold run_startup.
    rewrite Hnaps, Hk, Nat.sub_0_r; reflexivity.
  - intros stale Hn; unfold run_startup.
    rewrite Hnaps, Hn; reflexivity.
Qed.

End Startup.

(** ** mpv_control.py: the receive loop *)

Section Receive.
Import MpvControl ClientFacts.

Lemma first_line_app (a b : string) :
  PyStr.contains PyStr.newline a = true ->
  PyStr.first_line (a ++ b) = PyStr.first_line a.
Proof.
  induction a as [|c a IH]; [discriminate|].
  cbn [String.append PyStr.first_line]; rewrite contains_newline_cons.
  rewrite (Ascii.eqb_sym "010"%char c).
  destruct (Ascii.eqb c "010"%char); [reflexivity|].
  cbn [orb]; intros H; rewrite (IH H); reflexivity.
Qed.

Lemma first_line_whole (line rest : string) :
  PyStr.contains PyStr.newline line = false ->
  PyStr.first_line (line ++ PyStr.newline ++ rest) = line /\
  PyStr.contains PyStr.newline (line ++ PyStr.newline ++ rest) = true.
Proof.
  induction line as [|c line IH].
  - intros _; split; reflexivity.
  - cbn [String.append PyStr.first_line].
    rewrite !contains_newline_cons, (Ascii.eqb_sym "010"%char c).
    destruct (Ascii.eqb c "010"%char); [discriminate|].
    cbn [orb]; intros H; destruct (IH H) as [H1 H2].
    rewrite H1, H2; auto.
Qed.

Lemma recv_loop_prefix
  (pieces : list string) (tail : list recv_result) (data whole : string) :
  Forall (fun p => p <> "") pieces ->
  data ++ join pieces = whole ->
  PyStr.contains PyStr.newline whole = true ->
  exists read more,
    recv_loop (map Chunk pieces ++ tail) data = inr read /\
    PyStr.contains PyStr.newline read = true /\
    whole = read ++ more.
Proof.
  intros Hall; revert data.
  induction Hall as [|p pieces Hp _ IH]; intros data Hw Hnl.
  - cbn [join] in Hw; rewrite append_nil_r in Hw; subst whole.
    exists data, ""; rewrite append_nil_r.
    split; [apply recv_loop_done; exact Hnl | auto].
  - destruct (PyStr.contains PyStr.newline data) eqn:Hd.
    + exists data, (join (p :: pieces)).
      split; [apply recv_loop_done; exact Hd | auto].
    + cbn [map app recv_loop]; rewrite Hd.
      destruct p as [|c p]; [contradiction|].
      cbn [PyStr.truthy].
      apply IH; [|exact Hnl].
      rewrite append_assoc; exact Hw.
Qed.

(** A reply that arrives in pieces is put together again: however
    the far end cuts its bytes into non-empty pieces, once they hold a
    whole line and its newline the loop returns data whose first line is
    that line - and it does not read on, so whatever comes after (more
    data, a timeout) makes no difference. *)
Theorem recv_loop_reassembles
  (pieces : list string) (tail : list recv_result) (line rest : string) :
  Forall (fun p => p <> "") pieces ->
  join pieces = line ++ PyStr.newline ++ rest ->
  PyStr.contains PyStr.newline line = false ->
  exists read,
    recv_loop (map Chunk pieces ++ tail) "" = inr read /\
    PyStr.first_line read = line.
Proof.
  intros Hall Hj Hl.
  destruct (first_line_whole line rest Hl) as [Hf Hc].
  destruct (recv_loop_prefix pieces tail "" (line ++ PyStr.newline ++ rest)
              Hall Hj Hc) as (read & more & Hr & Hn & Hw).
  exists read; split; [exact Hr|].
  rewrite <- (first_line_app read more Hn), <- Hw; exact Hf.
Qed.

End Receive.

(** ** generate_qr_codes.py: the codes against the router *)

Section Codes.
Context {cm : PyStr.CaseMap}.
Variable BASE_DIR : string.
Import Player QrCodes.

Lemma In_insert_by {A : Type} (key : A -> string) (x y : A) (l : list A) :
  In y (insert_by key x l) <-> y = x \/ In y l.
Proof.
  induction l as [|z l IH]; cbn [insert_by In].
  - split; [intros [<- | []]; auto | intros [-> | []]; auto].
  - destruct (String.leb (key x) (key z)); cbn [In].
    + split; [intros [<- | H]; auto | intros [-> | H]; auto].
    + rewrite IH; split.
      * intros [<- | [-> | H]]; auto.
      * intros [-> | [<- | H]]; auto.
Qed.

Lemma In_sorted_by {A : Type} (key : A -> string) (y : A) (l : list A) :
  In y (sorted_by key l) <-> In y l.
Proof.
  induction l as [|x l IH]; cbn [sorted_by In]; [reflexivity|].
  rewrite In_insert_by, IH; split; intros [H | H]; auto.
Qed.

(** The codes for the media files are those of the files with a
    supported extension, one code per such file, carrying its stem. *)
Lemma media_code_iff (entries : list dir_entry) (q : qr) :
  In q (generate_for_media (Some entries)) <->
  exists f, In f entries /\ is_video f = true /\
            q = {| text := Pathlib.stem (name f);
                   label := Pathlib.stem (name f);
                   out := Pathlib.stem (name f) ++ ".png" |}.
Proof.
  cbn [generate_for_media]; rewrite in_map_iff; split.
  - intros (f & <- & Hf); apply filter_In in Hf as [Hin Hv].
    apply In_sorted_by in Hin; exists f; auto.
  - intros (f & Hin & Hv & ->); exists f; split; [reflexivity|].
    apply filter_In; split; [apply In_sorted_by; exact Hin | exact Hv].
Qed.

(** The text of a command code is its own upper-case form, holds no
    path separator or parent-directory token and starts with the
    prefix. *)
Lemma command_code_text (cmd : string) :
  In cmd Config.COMMANDS ->
  PyStr.upper ("CMD:" ++ cmd) = "CMD:" ++ cmd /\
  suspicious ("CMD:" ++ cmd) = false.
Proof.
  intros Hc; cbn [In Config.COMMANDS] in Hc.
  repeat match goal with
         | H : _ \/ _ |- _ => destruct H as [H | H]
         | H : False |- _ => destruct H
         end; subst cmd;
    (split; [rewrite PyStr.upper_7bit; reflexivity | reflexivity]).
Qed.

(** Every command has its code and every command code works: the
    codes generated for the commands are one per command, of text [CMD:]
    and the command, in a file of its own; scanning such a text, unless
    it is debounced, runs that very command - it is never rejected or
    unknown. *)
Theorem command_codes_run_their_command :
  (forall cmd, In cmd Config.COMMANDS <->
               exists q, In q generate_for_commands /\ label q = cmd) /\
  NoDup (map out generate_for_commands) /\
  forall q, In q generate_for_commands ->
    text q = "CMD:" ++ label q /\
    out q = "CMD-" ++ label q ++ ".png" /\
    forall mpv g now dir,
      debounced g now (text q) = false ->
      handle_scan BASE_DIR mpv g now dir (text q)
      = (fst (_execute_command BASE_DIR mpv
                {| _last_scan_text := text q; _last_scan_time := now;
                   _shutting_down := _shutting_down g |} (label q)),
         Log INFO "Executing command: %s" [label q]
           :: snd (_execute_command BASE_DIR mpv
                     {| _last_scan_text := text q; _last_scan_time := now;
                        _shutting_down := _shutting_down g |} (label q))).
Proof.
  split; [|split].
  - intros cmd; split.
    + intros Hin; eexists {| text := _; label := cmd; out := _ |}.
      split; [|reflexivity].
      unfold generate_for_commands; apply in_map_iff.
      exists cmd; split; [reflexivity | apply In_sorted_by; exact Hin].
    + intros (q & Hq & <-).
      unfold generate_for_commands in Hq; apply in_map_iff in Hq.
      destruct Hq as (cmd & <- & Hc); apply In_sorted_by in Hc; exact Hc.
  - vm_compute.
    repeat (constructor;
            [cbn [In]; intros H;
             repeat match goal with
                    | H : _ \/ _ |- _ => destruct H as [H | H]
                    end; try discriminate; contradiction|]).
    constructor.
  - intros q Hq.
    unfold generate_for_commands in Hq; apply in_map_iff in Hq.
    destruct Hq as (cmd & <- & Hc); apply In_sorted_by in Hc.
    cbn [text label out].
    split; [reflexivity|split; [reflexivity|]].
    intros mpv g now dir Hd.
    destruct (command_code_text cmd Hc) as [Hu Hs].
    change (Config.COMMAND_PREFIX ++ cmd) with ("CMD:" ++ cmd) in *.
    assert (Hp : PyStr.startswith (PyStr.upper ("CMD:" ++ cmd))
                   Config.COMMAND_PREFIX = true)
      by (rewrite Hu; reflexivity).
    rewrite (handle_scan_command BASE_DIR mpv g now dir _ Hd Hs Hp), Hu.
    change (PyStr.drop (String.length Config.COMMAND_PREFIX) ("CMD:" ++ cmd))
      with cmd.
    apply mem_In in Hc; rewrite Hc; reflexivity.
Qed.


Lemma append_inv_head (a b c : string) : a ++ b = a ++ c -> b = c.
Proof.
  induction a as [|x a IH]; [auto|].
  cbn [String.append]; intros [= H]; exact (IH H).
Qed.

(** Not every generated code plays its file: when the stem of a
    media file holds a parent-directory token, or starts with the
    command prefix in some letter case, the router does not take its
    code for a media request and loads no file of the media directory,
    though the file is there. *)
Theorem media_codes_refused
  (mpv : list string -> result bool)
  (dir : list dir_entry) (q : qr) (g : globals) (now : Q) :
  In q (generate_for_media (Some dir)) ->
  suspicious (text q) = true \/
  PyStr.startswith (PyStr.upper (text q)) Config.COMMAND_PREFIX = true ->
  (exists f, In f dir /\ is_file f = true /\ matches (text q) f) /\
  forall file_name,
    ~ In ["loadfile"; Config.MEDIA_DIR BASE_DIR ++ "/" ++ file_name]
         (ipc_calls
            (snd (handle_scan BASE_DIR mpv g now (Some dir) (text q)))).
Proof.
  intros Hq Hbad; split.
  - apply media_code_iff in Hq as (f0 & Hin & Hv & ->); cbn [text].
    exists f0; unfold is_video in Hv.
    apply andb_true_iff in Hv as [Hf He]; apply mem_In in He.
    split; [exact Hin|split; [exact Hf|]].
    unfold matches; auto.
  - intros file_name Hc; unfold Player.handle_scan in Hc.
    destruct (debounced g now (text q)); [destruct Hc|].
    destruct (suspicious (text q)) eqn:Hs; [destruct Hc|].
    destruct Hbad as [Hbad | Hp]; [discriminate|].
    rewrite Hp in Hc.
    destruct (negb _); [destruct Hc|].
    unfold _execute_command, show_splash, send, and_then, helper in Hc.
    repeat match type of Hc with
           | context [if String.eqb ?a ?b then _ else _] =>
               destruct (String.eqb a b)
           end;
      repeat match type of Hc with
             | context [raised_by (mpv ?c)] => destruct (mpv c)
             end;
      cbn [fst snd ipc_calls In raised_by has_raised existsb is_raised
           orb app] in Hc;
      repeat match goal with
             | H : _ \/ _ |- _ => destruct H as [H | H]
             | H : False |- _ => destruct H
             end; try discriminate.
    all: injection Hc as Hc;
      unfold Config.SPLASH_IMAGE, Config.ASSETS_DIR, Config.MEDIA_DIR in Hc;
      rewrite !append_assoc in Hc;
      apply append_inv_head in Hc; discriminate.
Qed.

End Codes.

(** ** The further properties at concrete inputs *)

Module MoreExamples.
Import Player PlayerLoops RouterFacts QrCodes MpvControl Sample.

#[local] Existing Instance ascii_case.
#[local] Existing Instance kernel_keys.
#[local] Existing Instance sample_codec.

Lemma decoder_ignores_inert_witness :
  Scanner.failed Scanner.decoder_init = None /\
  Scanner.read_from Scanner.decoder_init
    [key Ecodes.KEY_A 1; key Ecodes.KEY_ENTER 1]
  = ({| Scanner.buffer := ""; Scanner.shift := false;
        Scanner.failed := None |}, ["a"]) /\
  Scanner.read_from Scanner.decoder_init
    [ {| Ecodes.type := 4; Ecodes.code := 4; Ecodes.value := 30 |};
      key Ecodes.KEY_A 1; key Ecodes.KEY_A 0; key 59 1;
      key Ecodes.KEY_ENTER 1; key Ecodes.KEY_ENTER 0 ]
  = ({| Scanner.buffer := ""; Scanner.shift := false;
        Scanner.failed := None |}, ["a"]).
Proof.
  split; [reflexivity|split; [vm_compute; reflexivity|]].
  rewrite <- (decoder_ignores_inert Scanner.decoder_init
                [ {| Ecodes.type := 4; Ecodes.code := 4;
                     Ecodes.value := 30 |};
                  key Ecodes.KEY_A 1; key Ecodes.KEY_A 0; key 59 1;
                  key Ecodes.KEY_ENTER 1; key Ecodes.KEY_ENTER 0 ] eq_refl).
  vm_compute; reflexivity.
Defined.

Lemma read_scans_releases_device_witness :
  Forall (fun t => ScannerIO.ungrab_fails t = false)
    [ {| ScannerIO.devices :=
           [ {| ScannerIO.path := "/dev/input/event7";
                ScannerIO.name := "USB SCANNER HID";
                ScannerIO.capabilities := [] |} ];
         ScannerIO.grab_fails := false;
         ScannerIO.events := [key Ecodes.KEY_A 1; key Ecodes.KEY_ENTER 1];
         ScannerIO.ending := ScannerIO.Disconnected;
         ScannerIO.ungrab_fails := false |};
      {| ScannerIO.devices := [];
         ScannerIO.grab_fails := false;
         ScannerIO.events := [];
         ScannerIO.ending := ScannerIO.Disconnected;
         ScannerIO.ungrab_fails := false |} ] /\
  ScannerIO.held_after false
    (ScannerIO.read_scans
       [ {| ScannerIO.devices :=
              [ {| ScannerIO.path := "/dev/input/event7";
                   ScannerIO.name := "USB SCANNER HID";
                   ScannerIO.capabilities := [] |} ];
            ScannerIO.grab_fails := false;
            ScannerIO.events := [key Ecodes.KEY_A 1; key Ecodes.KEY_ENTER 1];
            ScannerIO.ending := ScannerIO.Disconnected;
            ScannerIO.ungrab_fails := false |};
         {| ScannerIO.devices := [];
            ScannerIO.grab_fails := false;
            ScannerIO.events := [];
            ScannerIO.ending := ScannerIO.Disconnected;
            ScannerIO.ungrab_fails := false |} ])
  = Some false.
Proof.
  assert (H : Forall (fun t => ScannerIO.ungrab_fails t = false)
    [ {| ScannerIO.devices :=
           [ {| ScannerIO.path := "/dev/input/event7";
                ScannerIO.name := "USB SCANNER HID";
                ScannerIO.capabilities := [] |} ];
         ScannerIO.grab_fails := false;
         ScannerIO.events := [key Ecodes.KEY_A 1; key Ecodes.KEY_ENTER 1];
         ScannerIO.ending := ScannerIO.Disconnected;
         ScannerIO.ungrab_fails := false |};
      {| ScannerIO.devices := [];
         ScannerIO.grab_fails := false;
         ScannerIO.events := [];
         ScannerIO.ending := ScannerIO.Disconnected;
         ScannerIO.ungrab_fails := false |} ]).
  { repeat constructor. }
  split; [exact H|].
  destruct read_scans_releases_device as (_ & Hheld & _).
  exact (Hheld _ H).
Defined.

Lemma keyboards_exclude_scanner_witness :
  ScannerIO.find_scanner
    [ {| ScannerIO.path := "/dev/input/event3"; ScannerIO.name := "AT keyboard";
         ScannerIO.capabilities := [(1%Z, [1%Z; 16%Z; 28%Z])] |};
      {| ScannerIO.path := "/dev/input/event7"; ScannerIO.name := "USB SCANNER HID";
         ScannerIO.capabilities := [(1%Z, [16%Z; 28%Z])] |} ]
  = Some {| ScannerIO.path := "/dev/input/event7"; ScannerIO.name := "USB SCANNER HID";
            ScannerIO.capabilities := [(1%Z, [16%Z; 28%Z])] |} /\
  ~ In {| ScannerIO.path := "/dev/input/event7"; ScannerIO.name := "USB SCANNER HID";
          ScannerIO.capabilities := [(1%Z, [16%Z; 28%Z])] |}
       (ScannerIO.keyboards
          [ {| ScannerIO.path := "/dev/input/event3"; ScannerIO.name := "AT keyboard";
               ScannerIO.capabilities := [(1%Z, [1%Z; 16%Z; 28%Z])] |};
            {| ScannerIO.path := "/dev/input/event7"; ScannerIO.name := "USB SCANNER HID";
               ScannerIO.capabilities := [(1%Z, [16%Z; 28%Z])] |} ]).
Proof.
  split; [reflexivity|].
  apply (proj2 (keyboards_exclude_scanner _)); reflexivity.
Defined.

Lemma duplicate_burst_discarded_witness :
  Forall (fun s => scanned_text s = "bambi" /\
                   (PyFloat.sub (at_time s) 10
                    < Config.SCAN_DEBOUNCE_SECONDS)%Q)
    [ {| at_time := 21 # 2; media := Some []; helpers := returning;
         scanned_text := "bambi" |};
      {| at_time := 11; media := None; helpers := returning;
         scanned_text := "bambi" |};
      {| at_time := 23 # 2; media := Some [];
         helpers := answering reply_array; scanned_text := "bambi" |} ] /\
  actions
    (snd (scan_all "/home/pi/kids"
            {| _last_scan_text := "bambi"; _last_scan_time := 10;
               _shutting_down := false |}
            [ {| at_time := 21 # 2; media := Some []; helpers := returning;
                 scanned_text := "bambi" |};
              {| at_time := 11; media := None; helpers := returning;
                 scanned_text := "bambi" |};
              {| at_time := 23 # 2; media := Some [];
                 helpers := answering reply_array;
                 scanned_text := "bambi" |} ]))
  = [].
Proof.
  assert (H : Forall (fun s => scanned_text s = "bambi" /\
                   (PyFloat.sub (at_time s) 10
                    < Config.SCAN_DEBOUNCE_SECONDS)%Q)
    [ {| at_time := 21 # 2; media := Some []; helpers := returning;
         scanned_text := "bambi" |};
      {| at_time := 11; media := None; helpers := returning;
         scanned_text := "bambi" |};
      {| at_time := 23 # 2; media := Some [];
         helpers := answering reply_array; scanned_text := "bambi" |} ]).
  { repeat (constructor; [split; [reflexivity | vm_compute; reflexivity]|]).
    constructor. }
  split; [exact H|].
  rewrite (duplicate_burst_discarded "/home/pi/kids"
             {| _last_scan_text := "bambi"; _last_scan_time := 10;
                _shutting_down := false |}
             _ H).
  reflexivity.
Defined.

Lemma handle_scan_sends_known_commands_witness :
  In ["stop"]
     (ipc_calls (snd (handle_scan "/home/pi/kids" returning globals_init 1
                        (Some []) "cmd:stop"))) /\
  (In ["stop"] (fixed_commands "/home/pi/kids") \/
   exists dir f,
     Some [] = Some dir /\ In f dir /\ is_file f = true /\
     ["stop"]
     = ["loadfile"; Config.MEDIA_DIR "/home/pi/kids" ++ "/" ++ name f]).
Proof.
  assert (H : In ["stop"]
     (ipc_calls (snd (handle_scan "/home/pi/kids" returning globals_init 1
                        (Some []) "cmd:stop")))) by (left; reflexivity).
  split; [exact H|].
  exact (proj2 (handle_scan_sends_known_commands "/home/pi/kids" returning
                  globals_init 1 (Some []) "cmd:stop") _ H).
Defined.

Lemma find_video_sound_witness :
  find_video (Some [ {| name := "Bambi.MP4"; is_file := true |} ]) "BAMBI"
  = Returns (Some {| name := "Bambi.MP4"; is_file := true |}) /\
  exists dir stem suffix,
    Some [ {| name := "Bambi.MP4"; is_file := true |} ] = Some dir /\
    In {| name := "Bambi.MP4"; is_file := true |} dir /\
    true = true /\
    "Bambi.MP4" = stem ++ suffix /\
    stem = Pathlib.stem "Bambi.MP4" /\ suffix = Pathlib.suffix "Bambi.MP4" /\
    PyStr.lower stem = PyStr.lower "BAMBI" /\
    In (PyStr.lower suffix) Config.VIDEO_EXTENSIONS.
Proof.
  split; [reflexivity|].
  apply (find_video_sound
           (Some [ {| name := "Bambi.MP4"; is_file := true |} ])
           "BAMBI" {| name := "Bambi.MP4"; is_file := true |}).
  reflexivity.
Defined.


Lemma keyboard_reader_stops_after_exit_witness :
  _shutting_down
    (fst (fst (_keyboard_reader "/home/pi/kids" globals_init
                 [ {| flag_raised_meanwhile := false; now := 1;
                      dir := Some []; mpv := returning;
                      line := "cmd:exit" ++ PyStr.newline |} ]))) = true /\
  _keyboard_reader "/home/pi/kids" globals_init
    ([ {| flag_raised_meanwhile := false; now := 1; dir := Some [];
          mpv := returning; line := "cmd:exit" ++ PyStr.newline |} ]
     ++ [ {| flag_raised_meanwhile := false; now := 9; dir := Some [];
             mpv := returning; line := "cmd:stop" ++ PyStr.newline |} ])
  = ({| _last_scan_text := "cmd:exit"; _last_scan_time := 1;
        _shutting_down := true |},
     [ Log INFO "Executing command: %s" ["EXIT"];
       Log INFO "EXIT command received, shutting down" [] ],
     None).
Proof.
  assert (H : _shutting_down
    (fst (fst (_keyboard_reader "/home/pi/kids" globals_init
                 [ {| flag_raised_meanwhile := false; now := 1;
                      dir := Some []; mpv := returning;
                      line := "cmd:exit" ++ PyStr.newline |} ]))) = true)
    by reflexivity.
  split; [exact H|].
  rewrite (keyboard_reader_stops_after_exit "/home/pi/kids"
             globals_init _ _ H).
  reflexivity.
Defined.

Lemma idle_watcher_stops_at_flag_witness :
  snd (idle_watcher_from "/home/pi/kids" watcher_init
         ([ {| flag_seen := false; idle := Returns false; minute := 3;
               splash_load := Returns true |} ]
          ++ {| flag_seen := true; idle := Returns true; minute := 3;
                splash_load := Returns true |}
             :: [ {| flag_seen := false; idle := Returns true; minute := 4;
                     splash_load := Returns true |} ]))
  = [].
Proof.
  rewrite (idle_watcher_stops_at_flag "/home/pi/kids" watcher_init
             [ {| flag_seen := false; idle := Returns false; minute := 3;
                  splash_load := Returns true |} ]
             [ {| flag_seen := false; idle := Returns true; minute := 4;
                  splash_load := Returns true |} ]
             {| flag_seen := true; idle := Returns true; minute := 3;
                splash_load := Returns true |} eq_refl).
  reflexivity.
Defined.

Lemma idle_watcher_generations_witness :
  Forall (fun o => flag_seen o = false /\ idle o = Returns true /\
                   exists b, splash_load o = Returns b)
    [ {| flag_seen := false; idle := Returns true; minute := 58;
         splash_load := Returns true |};
      {| flag_seen := false; idle := Returns true; minute := 58;
         splash_load := Returns true |};
      {| flag_seen := false; idle := Returns true; minute := 59;
         splash_load := Returns false |};
      {| flag_seen := false; idle := Returns true; minute := 0;
         splash_load := Returns true |};
      {| flag_seen := false; idle := Returns true; minute := 0;
         splash_load := Returns true |} ] /\
  List.length
    (filter is_generate
       (snd (idle_watcher "/home/pi/kids"
               [ {| flag_seen := false; idle := Returns true; minute := 58;
                    splash_load := Returns true |};
                 {| flag_seen := false; idle := Returns true; minute := 58;
                    splash_load := Returns true |};
                 {| flag_seen := false; idle := Returns true; minute := 59;
                    splash_load := Returns false |};
                 {| flag_seen := false; idle := Returns true; minute := 0;
                    splash_load := Returns true |};
                 {| flag_seen := false; idle := Returns true; minute := 0;
                    splash_load := Returns true |} ])))
  = 3%nat.
Proof.
  assert (H : Forall (fun o => flag_seen o = false /\ idle o = Returns true /\
                   exists b, splash_load o = Returns b)
    [ {| flag_seen := false; idle := Returns true; minute := 58;
         splash_load := Returns true |};
      {| flag_seen := false; idle := Returns true; minute := 58;
         splash_load := Returns true |};
      {| flag_seen := false; idle := Returns true; minute := 59;
         splash_load := Returns false |};
      {| flag_seen := false; idle := Returns true; minute := 0;
         splash_load := Returns true |};
      {| flag_seen := false; idle := Returns true; minute := 0;
         splash_load := Returns true |} ]).
  { repeat constructor; cbn; eauto. }
  split; [exact H|].
  rewrite (idle_watcher_generations "/home/pi/kids" _ H).
  reflexivity.
Defined.

Lemma socket_wait_bounded_witness :
  socket_ready (fun k => (3 <=? k)%nat)
  = (Some 3%nat, [Nap (1 # 4); Nap (1 # 4); Nap (1 # 4)]) /\
  fst (socket_ready (fun _ => false)) = None /\
  run_startup true (fun _ => false)
  = ([MakeMediaDir; UnlinkSocket; Say INFO "Starting mpv..."; Launch]
     ++ repeat (Nap (1 # 4)) 20
     ++ [Say ERROR "mpv socket did not appear, exiting"; TerminateMpv])%list.
Proof.
  assert (H3 : fst (socket_ready (fun k => (3 <=? k)%nat)) = Some 3%nat).
  { apply (proj1 (socket_wait_bounded (fun k => (3 <=? k)%nat))).
    split; [lia|split; [reflexivity|]].
    intros j Hj; apply Nat.leb_gt; exact Hj. }
  assert (Hn : fst (socket_ready (fun _ => false)) = None).
  { apply (proj1 (proj2 (socket_wait_bounded (fun _ => false)))).
    intros j _; reflexivity. }
  split; [|split; [exact Hn|]].
  - destruct (socket_wait_bounded (fun k => (3 <=? k)%nat))
      as (_ & _ & Hnaps & _).
    specialize (Hnaps _ H3).
    destruct (socket_ready (fun k => (3 <=? k)%nat)) as [found naps].
    cbn [fst snd] in *; rewrite H3, Hnaps; reflexivity.
  - destruct (socket_wait_bounded (fun _ => false))
      as (_ & _ & _ & _ & _ & Hrun).
    exact (Hrun true Hn).
Defined.

Lemma recv_loop_reassembles_witness :
  (Forall (fun p => p <> "") ["{"; q "error" ++ ":"; q "success" ++ "}" ++ PyStr.newline] /\
   PyStr.contains PyStr.newline reply_success = false) /\
  exists read,
    recv_loop
      (map Chunk ["{"; q "error" ++ ":"; q "success" ++ "}" ++ PyStr.newline]
       ++ [RecvRaises TimeoutError]) ""
    = inr read /\
    PyStr.first_line read = reply_success.
Proof.
  assert (H : Forall (fun p => p <> "")
                ["{"; q "error" ++ ":"; q "success" ++ "}" ++ PyStr.newline]).
  { repeat constructor; discriminate. }
  split; [split; [exact H | reflexivity]|].
  apply (recv_loop_reassembles _ [RecvRaises TimeoutError] reply_success ""
           H); reflexivity.
Defined.

Lemma command_codes_run_their_command_witness :
  In {| text := "CMD:MUTE"; label := "MUTE"; out := "CMD-MUTE.png" |}
     generate_for_commands /\
  actions (snd (handle_scan "/home/pi/kids" returning globals_init 1
                  (Some []) "CMD:MUTE"))
  = [Ipc ["cycle"; "mute"]].
Proof.
  assert (H : In {| text := "CMD:MUTE"; label := "MUTE";
                    out := "CMD-MUTE.png" |} generate_for_commands).
  { vm_compute; auto 10. }
  split; [exact H|].
  destruct (command_codes_run_their_command "/home/pi/kids") as (_ & _ & Hq).
  destruct (Hq _ H) as (_ & _ & Hrun).
  change "CMD:MUTE" with (text {| text := "CMD:MUTE"; label := "MUTE";
                                  out := "CMD-MUTE.png" |}).
  rewrite (Hrun returning globals_init 1 (Some []) eq_refl).
  reflexivity.
Defined.


Lemma media_codes_refused_witness :
  In {| text := "Vol..2"; label := "Vol..2"; out := "Vol..2.png" |}
     (generate_for_media (Some [ {| name := "Vol..2.mp4"; is_file := true |} ]))
  /\ suspicious "Vol..2" = true
  /\ ~ In ["loadfile"; Config.MEDIA_DIR "/home/pi/kids" ++ "/" ++ "Vol..2.mp4"]
          (ipc_calls
             (snd (handle_scan "/home/pi/kids" returning globals_init 1
                     (Some [ {| name := "Vol..2.mp4"; is_file := true |} ])
                     "Vol..2"))).
Proof.
  assert (H : In {| text := "Vol..2"; label := "Vol..2"; out := "Vol..2.png" |}
     (generate_for_media
        (Some [ {| name := "Vol..2.mp4"; is_file := true |} ]))).
  { vm_compute; auto. }
  split; [exact H|split; [reflexivity|]].
  exact (proj2 (media_codes_refused "/home/pi/kids" returning _ _
                  globals_init 1 H (or_introl eq_refl)) "Vol..2.mp4").
Defined.

End MoreExamples.
